(** * ClipABit plugin installer (installer-script.py): model and properties

    The installer is a straight-line pipeline of gates.  Each gate reads the
    platform identity, the environment variables and the filesystem, spawns
    external processes, and either returns a boolean or lets a Python
    exception escape.  The model threads one [World] value through every
    call and keeps Python's exceptions as a second kind of outcome.

    Console output (the [print_*] helpers) is not part of the model: writing
    a message is taken to succeed and to leave the world unchanged.  Where
    building a message can itself raise (decoding captured bytes, taking the
    length of a value), that evaluation is kept.

    Further conventions: [Path.home()] and the location of the script are
    given by the world; an existence check is taken to answer (it does not
    itself fail on an unreadable directory); a spawn either finds no
    program or runs it to an exit status; the text-mode decoding of the
    output of the version probes is taken to succeed; a filesystem call
    that the environment refuses is refused before it changes anything
    (what a copy that fails midway leaves behind is not described).  The
    properties below are stated on the outcomes these conventions leave
    open: what is returned when the checks answer, and what the handlers
    of the code catch. *)

From Stdlib Require Import String Ascii List ZArith NArith Bool Lia.
From Stdlib Require Import Strings.Byte.
Import ListNotations.
Open Scope string_scope.
Open Scope list_scope.

(* ------------------------------------------------------------------ *)
(** ** Bytes and strict UTF-8 decoding ([bytes.decode()]) *)

Definition bytes := list byte.

Definition in_range (lo hi b : N) : bool := (lo <=? b)%N && (b <=? hi)%N.

(** Decoder state: between code points, or inside one with [need]
    continuation bytes to come, the next of which must lie in [lo..hi],
    and [acc] the bits read so far. *)
Inductive utf8_state :=
| U_start
| U_cont (need : nat) (lo hi : N) (acc : N).

Definition utf8_step (st : utf8_state) (b : N) : option (utf8_state * option N) :=
  match st with
  | U_start =>
      if in_range 0 127 b then Some (U_start, Some b)
      else if in_range 194 223 b then Some (U_cont 1 128 191 (b - 192), None)
      else if (b =? 224)%N then Some (U_cont 2 160 191 (b - 224), None)
      else if in_range 225 236 b then Some (U_cont 2 128 191 (b - 224), None)
      else if (b =? 237)%N then Some (U_cont 2 128 159 (b - 224), None)
      else if in_range 238 239 b then Some (U_cont 2 128 191 (b - 224), None)
      else if (b =? 240)%N then Some (U_cont 3 144 191 (b - 240), None)
      else if in_range 241 243 b then Some (U_cont 3 128 191 (b - 240), None)
      else if (b =? 244)%N then Some (U_cont 3 128 143 (b - 240), None)
      else None
  | U_cont need lo hi acc =>
      if in_range lo hi b then
        let acc' := (acc * 64 + (b - 128))%N in
        match need with
        | O | S O => Some (U_start, Some acc')
        | S n => Some (U_cont n 128 191 acc', None)
        end
      else None
  end.

Fixpoint utf8_run (st : utf8_state) (bs : bytes) : option (list N) :=
  match bs with
  | [] => match st with U_start => Some [] | U_cont _ _ _ _ => None end
  | b :: rest =>
      match utf8_step st (Byte.to_N b) with
      | None => None
      | Some (st', out) =>
          match utf8_run st' rest with
          | None => None
          | Some cps => Some (match out with Some c => c :: cps | None => cps end)
          end
      end
  end.

(** [bytes.decode()] with the default codec and error mode: the code points,
    or [None] where Python raises [UnicodeDecodeError]. *)
Definition utf8_decode (bs : bytes) : option (list N) := utf8_run U_start bs.

(* ------------------------------------------------------------------ *)
(** ** Paths

    A path is the list of its components from the filesystem root (the
    drive, when there is one, is the first component). *)

Definition Path := list string.

Definition is_sep (windows : bool) (c : ascii) : bool :=
  Ascii.eqb c "/"%char || (windows && Ascii.eqb c "\"%char).

Definition flush (cur : string) : list string :=
  match cur with EmptyString => [] | _ => [cur] end.

Fixpoint parts_from (windows : bool) (cur s : string) : list string :=
  match s with
  | EmptyString => flush cur
  | String c s' =>
      if is_sep windows c
      then flush cur ++ parts_from windows EmptyString s'
      else parts_from windows (cur ++ String c EmptyString)%string s'
  end.

(** The components of a path written as text. *)
Definition parts (windows : bool) (s : string) : Path :=
  parts_from windows EmptyString s.

(** [p / "a/b"]: the relative segments of this program are all written
    with forward slashes. *)
Definition joinpath (p : Path) (rel : string) : Path := p ++ parts false rel.

Declare Scope path_scope.
Delimit Scope path_scope with path.
Notation "p // s" := (joinpath p s) (at level 40, left associativity) : path_scope.
Open Scope path_scope.

Definition path_eqb (p q : Path) : bool :=
  if list_eq_dec string_dec p q then true else false.

(** [strip_prefix p q = Some r] exactly when [q = p ++ r]. *)
Fixpoint strip_prefix (p q : Path) : option Path :=
  match p, q with
  | [], _ => Some q
  | a :: p', b :: q' => if String.eqb a b then strip_prefix p' q' else None
  | _ :: _, [] => None
  end.

Definition is_prefix (p q : Path) : bool :=
  match strip_prefix p q with Some _ => true | None => false end.

(** All initial segments of a path, the root first and the path itself last. *)
Fixpoint prefixes (p : Path) : list Path :=
  match p with
  | [] => [[]]
  | a :: p' => [] :: map (cons a) (prefixes p')
  end.

(* ------------------------------------------------------------------ *)
(** ** Filesystem *)

Inductive entry :=
| File (data : bytes) (mode : N)
| Dir.

Definition FS := Path -> option entry.

Definition is_file (e : option entry) : bool :=
  match e with Some (File _ _) => true | _ => false end.

Definition is_dir (e : option entry) : bool :=
  match e with Some Dir => true | _ => false end.

Definition present (e : option entry) : bool :=
  match e with Some _ => true | None => false end.

(** The filesystem calls the installer makes; the environment may refuse
    any of them (permissions, read-only volume, ...). *)
Inductive syscall :=
| Mkdir (p : Path)
| Rmtree (p : Path)
| Copytree (src dst : Path)
| Chmod (p : Path)
| Open (p : Path).

(** [os.makedirs]-style creation of [p] and its missing ancestors; [None]
    when a component of [p] is an existing regular file. *)
Definition make_dirs (f : FS) (p : Path) : option FS :=
  if existsb (fun q => is_file (f q)) (prefixes p) then None
  else Some (fun q => if is_prefix q p && negb (present (f q)) then Some Dir else f q).

Definition remove_tree (f : FS) (p : Path) : FS :=
  fun q => if is_prefix p q then None else f q.

(** The tree below [src] laid over [dst]. *)
Definition graft (f : FS) (src dst : Path) (base : FS) : FS :=
  fun q => match strip_prefix dst q with
           | Some r => f (src ++ r)
           | None => base q
           end.

Definition set_mode (f : FS) (p : Path) (m : N) : FS :=
  fun q => if path_eqb p q
           then match f q with
                | Some (File d _) => Some (File d m)
                | other => other
                end
           else f q.

(* ------------------------------------------------------------------ *)
(** ** TOML documents as Python values *)

#[local] Unset Elimination Schemes.
Inductive value :=
| TString (s : string)
| TInteger (z : Z)
| TFloat (nonzero : bool)     (* a float matters here only by its truth value *)
| TBoolean (b : bool)
| TDatetime                   (* dates and times: always true, no length *)
| TArray (items : list value)
| TTable (fields : list (string * value)).
#[local] Set Elimination Schemes.

(** Python's truth value. *)
Definition truthy (v : value) : bool :=
  match v with
  | TString s => negb (String.eqb s "")
  | TInteger z => negb (Z.eqb z 0)
  | TFloat nz => nz
  | TBoolean b => b
  | TDatetime => true
  | TArray l => match l with [] => false | _ => true end
  | TTable l => match l with [] => false | _ => true end
  end.

(** [len(v)]; [None] where Python raises [TypeError]. *)
Definition py_len (v : value) : option nat :=
  match v with
  | TString s => Some (String.length s)
  | TArray l => Some (List.length l)
  | TTable l => Some (List.length l)
  | _ => None
  end.

Fixpoint chars (s : string) : list value :=
  match s with
  | EmptyString => []
  | String c s' => TString (String c EmptyString) :: chars s'
  end.

(** What a [for] loop over [v] visits; [None] where [v] is not iterable. *)
Definition py_iter (v : value) : option (list value) :=
  match v with
  | TString s => Some (chars s)
  | TArray l => Some l
  | TTable l => Some (map (fun kv => TString (fst kv)) l)
  | _ => None
  end.

Fixpoint assoc (k : string) (l : list (string * value)) : option value :=
  match l with
  | [] => None
  | (k', v) :: l' => if String.eqb k k' then Some v else assoc k l'
  end.

(* ------------------------------------------------------------------ *)
(** ** External processes *)

Record CompletedProcess := mkCompleted {
  returncode : Z;
  stdout : bytes;
  stderr : bytes
}.

(** What the operating system answers to a spawn request. *)
Inductive spawn :=
| NoSuchProgram
| Exits (cp : CompletedProcess).

(* ------------------------------------------------------------------ *)
(** ** The world *)

Record World := mkWorld {
  system : string;                          (* platform.system() *)
  home : Path;                              (* Path.home() *)
  script_dir : Path;                        (* Path(__file__).parent.absolute() *)
  environ : string -> option string;        (* os.getenv *)
  tomllib : option (bytes -> option value); (* the parser module, when importable *)
  fs : FS;
  faults : syscall -> bool;                 (* calls the environment refuses *)
  procs : list string -> spawn;             (* how each command line behaves *)
  site_packages : list string;              (* requirements pip has installed *)
  spawned : list (list string)              (* every subprocess.run so far, oldest first *)
}.

Definition with_fs (w : World) (f : FS) : World :=
  mkWorld (system w) (home w) (script_dir w) (environ w) (tomllib w)
          f (faults w) (procs w) (site_packages w) (spawned w).

Definition with_spawned (w : World) (argv : list string) : World :=
  mkWorld (system w) (home w) (script_dir w) (environ w) (tomllib w)
          (fs w) (faults w) (procs w) (site_packages w) (spawned w ++ [argv]).

Definition with_package (w : World) (req : string) : World :=
  mkWorld (system w) (home w) (script_dir w) (environ w) (tomllib w)
          (fs w) (faults w) (procs w) (site_packages w ++ [req]) (spawned w).

(* ------------------------------------------------------------------ *)
(** ** Outcomes and the installer monad *)

Inductive exn :=
| SystemExit (code : Z)
| CalledProcessError (rc : Z) (err : option bytes)
| FileNotFoundError
| FileExistsError
| NotADirectoryError
| IsADirectoryError
| PermissionError
| TypeError
| AttributeError
| UnicodeDecodeError
| TOMLDecodeError.

Inductive outcome (A : Type) :=
| Ret (a : A)
| Raise (e : exn).
Arguments Ret {A} a.
Arguments Raise {A} e.

Definition M (A : Type) := World -> outcome A * World.

Definition ret {A} (a : A) : M A := fun w => (Ret a, w).
Definition raise {A} (e : exn) : M A := fun w => (Raise e, w).

Definition bind {A B} (m : M A) (k : A -> M B) : M B :=
  fun w => match m w with
           | (Ret a, w') => k a w'
           | (Raise e, w') => (Raise e, w')
           end.

Declare Scope inst_scope.
Delimit Scope inst_scope with inst.
Notation "x <- m ;; k" := (bind m (fun x => k))
  (at level 100, m at next level, right associativity) : inst_scope.
Notation "m ;;; k" := (bind m (fun _ => k))
  (at level 100, right associativity) : inst_scope.
Open Scope inst_scope.

(** [try: body except <classes>: handler]. *)
Definition try_except {A} (body : M A) (catches : exn -> bool) (handler : exn -> M A) : M A :=
  fun w => match body w with
           | (Raise e, w') => if catches e then handler e w' else (Raise e, w')
           | r => r
           end.

(** [except Exception]: everything but [SystemExit]. *)
Definition is_Exception (e : exn) : bool :=
  match e with SystemExit _ => false | _ => true end.

Definition is_CalledProcessError (e : exn) : bool :=
  match e with CalledProcessError _ _ => true | _ => false end.

Definition is_FileNotFoundError (e : exn) : bool :=
  match e with FileNotFoundError => true | _ => false end.

Definition gets {A} (f : World -> A) : M A := fun w => (Ret (f w), w).

Definition of_option {A} (o : option A) (e : exn) : M A :=
  match o with Some a => ret a | None => raise e end.

(* ------------------------------------------------------------------ *)
(** ** Library calls *)

Definition is_windows (w : World) : bool := String.eqb (system w) "Windows".

(** [Path.exists()]. *)
Definition path_exists (p : Path) : M bool :=
  gets (fun w => present (fs w p)).

(** [os.path.exists(s)] on a path given as text. *)
Definition os_path_exists (s : string) : M bool :=
  gets (fun w => present (fs w (parts (is_windows w) s))).

(** [Path(s)]; a missing value is not a path. *)
Definition Path_of (v : option string) : M Path :=
  fun w => match v with
           | Some s => (Ret (parts (is_windows w) s), w)
           | None => (Raise TypeError, w)
           end.

Definition os_getenv (name : string) : M (option string) :=
  gets (fun w => environ w name).

Definition refused (c : syscall) : M unit :=
  fun w => if faults w c then (Raise PermissionError, w) else (Ret tt, w).

(** [Path.mkdir(parents=True, exist_ok=True)]. *)
Definition mkdir_parents (p : Path) : M unit :=
  refused (Mkdir p) ;;;
  fun w => match make_dirs (fs w) p with
           | Some f => (Ret tt, with_fs w f)
           | None => (Raise (if is_file (fs w p) then FileExistsError
                             else NotADirectoryError), w)
           end.

(** [shutil.rmtree(p)]. *)
Definition shutil_rmtree (p : Path) : M unit :=
  refused (Rmtree p) ;;;
  fun w => match fs w p with
           | Some Dir => (Ret tt, with_fs w (remove_tree (fs w) p))
           | Some (File _ _) => (Raise NotADirectoryError, w)
           | None => (Raise FileNotFoundError, w)
           end.

(** [shutil.copytree(src, dst)]: [src] must be a directory and [dst] must
    not exist; [dst] is created with its missing ancestors and receives the
    whole tree below [src], permission bits included. *)
Definition shutil_copytree (src dst : Path) : M unit :=
  refused (Copytree src dst) ;;;
  fun w => match fs w src with
           | None => (Raise FileNotFoundError, w)
           | Some (File _ _) => (Raise NotADirectoryError, w)
           | Some Dir =>
               if present (fs w dst) then (Raise FileExistsError, w)
               else match make_dirs (fs w) dst with
                    | None => (Raise NotADirectoryError, w)
                    | Some base => (Ret tt, with_fs w (graft (fs w) src dst base))
                    end
           end.

(** [os.chmod(p, mode)]. *)
Definition os_chmod (p : Path) (mode : N) : M unit :=
  refused (Chmod p) ;;;
  fun w => match fs w p with
           | None => (Raise FileNotFoundError, w)
           | Some _ => (Ret tt, with_fs w (set_mode (fs w) p mode))
           end.

(** [open(p, "rb")] followed by reading the whole file. *)
Definition open_rb (p : Path) : M bytes :=
  refused (Open p) ;;;
  fun w => match fs w p with
           | None => (Raise FileNotFoundError, w)
           | Some Dir => (Raise IsADirectoryError, w)
           | Some (File d _) => (Ret d, w)
           end.

(** [d.get(key, default)]; only a table has [get]. *)
Definition dict_get (d : value) (key : string) (default : value) : M value :=
  match d with
  | TTable fields => ret (match assoc key fields with Some v => v | None => default end)
  | _ => raise AttributeError
  end.

Definition pip_install_argv (dep : string) : list string :=
  ["python3"; "-m"; "pip"; "install"; "--upgrade"; dep].

(** The requirement a command line installs, when it is a pip install. *)
Definition installs (argv : list string) : option string :=
  match argv with
  | [a; b; c; d; e; dep] =>
      if list_eq_dec string_dec [a; b; c; d; e] ["python3"; "-m"; "pip"; "install"; "--upgrade"]
      then Some dep else None
  | _ => None
  end.

(** [subprocess.run(argv, check=..., capture_output=...)]: the call is
    recorded, the program runs to its end, a successful pip install adds its
    requirement to the runtime's packages, and with [check] a non-zero
    status becomes [CalledProcessError]. *)
Definition subprocess_run (argv : list string) (check capture : bool) : M CompletedProcess :=
  fun w =>
    let w1 := with_spawned w argv in
    match procs w argv with
    | NoSuchProgram => (Raise FileNotFoundError, w1)
    | Exits cp =>
        let w2 := match installs argv with
                  | Some req => if (returncode cp =? 0)%Z then with_package w1 req else w1
                  | None => w1
                  end in
        if check && negb (returncode cp =? 0)%Z
        then (Raise (CalledProcessError (returncode cp)
                       (if capture then Some (stderr cp) else None)), w2)
        else (Ret cp, w2)
    end.

(** [sys.exit(code)]. *)
Definition sys_exit {A} (code : Z) : M A := raise (SystemExit code).

(** The status the interpreter hands to the operating system: the code of a
    [SystemExit], 1 for any other uncaught exception, 0 when the script
    runs off its end. *)
Definition exit_status {A} (o : outcome A) : Z :=
  match o with
  | Ret _ => 0
  | Raise (SystemExit c) => c
  | Raise _ => 1
  end.

(* ------------------------------------------------------------------ *)
(** ** The installer *)

Definition check_platform : M bool :=
  sys <- gets system ;;
  if String.eqb sys "Darwin" then ret true
  else if String.eqb sys "Windows" then ret true
  else ret false.

Fixpoint first_existing (resolve_paths : list string) : M bool :=
  match resolve_paths with
  | [] => ret false
  | path :: rest =>
      found <- os_path_exists path ;;
      if found then ret true else first_existing rest
  end.

Definition check_davinci_resolve : M bool :=
  sys <- gets system ;;
  if String.eqb sys "Darwin" then
    first_existing
      [ "/Applications/DaVinci Resolve/DaVinci Resolve.app";
        "/Applications/DaVinci Resolve Studio/DaVinci Resolve Studio.app" ]
  else if String.eqb sys "Windows" then
    first_existing
      [ "C:\Program Files\Blackmagic Design\DaVinci Resolve\Resolve.exe";
        "C:\Program Files\Blackmagic Design\DaVinci Resolve Studio\Resolve.exe" ]
  else ret false.

Definition check_python_installation : M bool :=
  try_except
    (subprocess_run ["python3"; "--version"] true true ;;;
     subprocess_run ["which"; "python3"] true true ;;;
     version_check <-
       subprocess_run
         ["python3"; "-c";
          "import sys; sys.exit(0 if sys.version_info >= (3, 8) else 1)"]
         false true ;;
     if negb (returncode version_check =? 0)%Z then ret false else ret true)
    (fun e => is_CalledProcessError e || is_FileNotFoundError e)
    (fun _ => ret false).

Definition check_pip_installation : M bool :=
  try_except
    (subprocess_run ["python3"; "-m"; "pip"; "--version"] true true ;;; ret true)
    is_CalledProcessError
    (fun _ =>
       try_except
         (subprocess_run ["python3"; "-m"; "ensurepip"; "--default-pip"] true false ;;;
          ret true)
         is_CalledProcessError
         (fun _ => ret false)).

Definition fallback_dependencies : value :=
  TArray [ TString "pyqt6>=6.10.0";
           TString "requests>=2.31.0";
           TString "watchdog>=3.0.0" ].

Definition pyproject_path (w : World) : Path :=
  script_dir w // "frontend/plugin/pyproject.toml".

Definition get_dependencies_from_pyproject : M value :=
  pyproject <- gets pyproject_path ;;
  found <- path_exists pyproject ;;
  if negb found then ret fallback_dependencies
  else
    parser <- gets tomllib ;;
    match parser with
    | None => ret fallback_dependencies
    | Some load =>
        try_except
          (raw <- open_rb pyproject ;;
           data <- of_option (load raw) TOMLDecodeError ;;
           project <- dict_get data "project" (TTable []) ;;
           dependencies <- dict_get project "dependencies" (TArray []) ;;
           if truthy dependencies then
             of_option (py_len dependencies) TypeError ;;;
             ret dependencies
           else ret (TArray []))
          is_Exception
          (fun _ => ret fallback_dependencies)
    end.

(** The text shown for a failed install: the captured error stream decoded,
    or a fixed text when nothing was captured. *)
Definition error_text (e : exn) : M unit :=
  match e with
  | CalledProcessError _ (Some (b :: rest)) =>
      of_option (utf8_decode (b :: rest)) UnicodeDecodeError ;;; ret tt
  | _ => ret tt
  end.

(** The [for dep in dependencies] loop; [false] is the early [return False]. *)
Fixpoint install_each (dependencies : list value) : M bool :=
  match dependencies with
  | [] => ret true
  | dep :: rest =>
      ok <- try_except
              (match dep with
               | TString s => subprocess_run (pip_install_argv s) true true ;;; ret true
               | _ => raise TypeError
               end)
              is_CalledProcessError
              (fun e => error_text e ;;; ret false) ;;
      if ok then install_each rest else ret false
  end.

Definition install_dependencies : M bool :=
  dependencies <- get_dependencies_from_pyproject ;;
  if negb (truthy dependencies) then ret true
  else
    items <- of_option (py_iter dependencies) TypeError ;;
    install_each items.

Definition macos_user_suffix : string :=
  "Library/Application Support/Blackmagic Design/DaVinci Resolve/Fusion/Scripts/Utility".
Definition macos_system_dir : string :=
  "/Library/Application Support/Blackmagic Design/DaVinci Resolve/Fusion/Scripts/Utility".
Definition windows_user_suffix : string :=
  "Blackmagic Design/DaVinci Resolve/Support/Fusion/Scripts/Utility".
Definition windows_system_suffix : string :=
  "Blackmagic Design/DaVinci Resolve/Fusion/Scripts/Utility".

(** The last three lines of [get_resolve_plugin_directory]. *)
Definition choose_directory (user_plugin_dir system_plugin_dir : Path) : M Path :=
  user_there <- path_exists user_plugin_dir ;;
  system_there <- path_exists system_plugin_dir ;;
  if user_there || negb system_there then ret user_plugin_dir
  else ret system_plugin_dir.

Definition get_resolve_plugin_directory : M Path :=
  sys <- gets system ;;
  if String.eqb sys "Darwin" then
    h <- gets home ;;
    choose_directory (h // macos_user_suffix) (parts false macos_system_dir)
  else if String.eqb sys "Windows" then
    appdata <- os_getenv "APPDATA" ;;
    programdata <- os_getenv "PROGRAMDATA" ;;
    a <- Path_of appdata ;;
    p <- Path_of programdata ;;
    choose_directory (a // windows_user_suffix) (p // windows_system_suffix)
  else
    h <- gets home ;;
    ret (h // "ClipABit").

Definition plugin_source (w : World) : Path := script_dir w // "frontend/plugin".

Definition copy_plugin_files : M bool :=
  source <- gets plugin_source ;;
  found <- path_exists source ;;
  if negb found then ret false
  else
    plugin_dir <- get_resolve_plugin_directory ;;
    let plugin_target := plugin_dir // "ClipABit" in
    ready <- try_except (mkdir_parents plugin_dir ;;; ret true)
                        is_Exception (fun _ => ret false) ;;
    if negb ready then ret false
    else
      old <- path_exists plugin_target ;;
      cleared <- (if old
                  then try_except (shutil_rmtree plugin_target ;;; ret true)
                                  is_Exception (fun _ => ret false)
                  else ret true) ;;
      if negb cleared then ret false
      else
        try_except
          (shutil_copytree source plugin_target ;;;
           let main_plugin := plugin_target // "clipabit.py" in
           there <- path_exists main_plugin ;;
           (if there then os_chmod main_plugin 493 else ret tt) ;;;
           ret true)
          is_Exception
          (fun _ => ret false).

Definition import_check_argv : list string :=
  ["python3"; "-c"; "import PyQt6, requests, watchdog"].

Definition verify_installation : M bool :=
  plugin_dir <- get_resolve_plugin_directory ;;
  let plugin_path := plugin_dir // "ClipABit/clipabit.py" in
  found <- path_exists plugin_path ;;
  if negb found then ret false
  else
    try_except
      (subprocess_run import_check_argv true true ;;; ret true)
      is_CalledProcessError
      (fun _ => ret false).

(** [if not gate(): sys.exit(code)]. *)
Definition exit_unless (gate : M bool) (code : Z) : M unit :=
  ok <- gate ;;
  if negb ok then sys_exit code else ret tt.

Definition main : M unit :=
  exit_unless check_platform 1 ;;;
  exit_unless check_davinci_resolve 1 ;;;
  exit_unless check_python_installation 1 ;;;
  exit_unless check_pip_installation 1 ;;;
  exit_unless install_dependencies 1 ;;;
  exit_unless copy_plugin_files 1 ;;;
  exit_unless verify_installation 0 ;;;
  sys_exit 0.

(* ------------------------------------------------------------------ *)
(** ** Vocabulary of the statements *)

(** The two candidate directories, as [get_resolve_plugin_directory] builds
    them; there is none on an unsupported platform, nor on Windows when the
    variable holding the root is unset. *)
Definition user_scope_dir (w : World) : option Path :=
  if String.eqb (system w) "Darwin" then Some (home w // macos_user_suffix)
  else if String.eqb (system w) "Windows" then
    option_map (fun s => parts true s // windows_user_suffix) (environ w "APPDATA")
  else None.

Definition system_scope_dir (w : World) : option Path :=
  if String.eqb (system w) "Darwin" then Some (parts false macos_system_dir)
  else if String.eqb (system w) "Windows" then
    option_map (fun s => parts true s // windows_system_suffix) (environ w "PROGRAMDATA")
  else None.

Definition supported (w : World) : Prop :=
  system w = "Darwin" \/ system w = "Windows".

(** The rule of the specification: user scope, unless it is absent while
    system scope is there. *)
Definition resolution_rule (f : FS) (user_dir system_dir : Path) : Path :=
  if negb (present (f user_dir)) && present (f system_dir)
  then system_dir else user_dir.

(** The value found under [project.dependencies] of a parsed manifest. *)
Definition declared_dependencies (data : value) : option value :=
  match data with
  | TTable fields =>
      match assoc "project" fields with
      | Some (TTable project) => assoc "dependencies" project
      | _ => None
      end
  | _ => None
  end.

(** The situations of the manifest the specification tells apart. *)
Inductive manifest_state :=
| ManifestMissing
| ParserUnavailable
| ReadingRaises
| ParsingRaises
| EmptyDependencyTable.

Definition in_state (w : World) (st : manifest_state) : Prop :=
  match st with
  | ManifestMissing => present (fs w (pyproject_path w)) = false
  | ParserUnavailable => tomllib w = None
  | ReadingRaises =>
      present (fs w (pyproject_path w)) = true /\
      exists load e, tomllib w = Some load /\
                     fst (open_rb (pyproject_path w) w) = Raise e
  | ParsingRaises =>
      exists load raw, tomllib w = Some load /\
                       fst (open_rb (pyproject_path w) w) = Ret raw /\
                       load raw = None
  | EmptyDependencyTable =>
      exists load raw data, tomllib w = Some load /\
                            fst (open_rb (pyproject_path w) w) = Ret raw /\
                            load raw = Some data /\
                            declared_dependencies data = Some (TArray [])
  end.

(** The world after [A] was installed and the install of [B] was tried. *)
Definition after_two_installs (w : World) (A B : string) : World :=
  with_spawned (with_package (with_spawned w (pip_install_argv A)) A)
               (pip_install_argv B).

(** The commands a computation spawns when started in [w]. *)
Definition commands_run {A} (m : M A) (w : World) : list (list string) :=
  skipn (List.length (spawned w)) (spawned (snd (m w))).

Inductive stage :=
| CheckPlatform
| CheckHostApplication
| CheckRuntime
| CheckPackageManager
| InstallDependencies
| DeployPlugin
| VerifyInstallation.

Definition gate_of (s : stage) : M bool :=
  match s with
  | CheckPlatform => check_platform
  | CheckHostApplication => check_davinci_resolve
  | CheckRuntime => check_python_installation
  | CheckPackageManager => check_pip_installation
  | InstallDependencies => install_dependencies
  | DeployPlugin => copy_plugin_files
  | VerifyInstallation => verify_installation
  end.

(** The status [main] exits with when the gate of a stage returns false. *)
Definition status_on_failure (s : stage) : Z :=
  match s with
  | VerifyInstallation => 0
  | _ => 1
  end.

Definition all_stages : list stage :=
  [ CheckPlatform; CheckHostApplication; CheckRuntime; CheckPackageManager;
    InstallDependencies; DeployPlugin; VerifyInstallation ].

(** The stages [main] runs before and after a given one. *)
Definition stages_before (s : stage) : list stage :=
  match s with
  | CheckPlatform => []
  | CheckHostApplication => [CheckPlatform]
  | CheckRuntime => [CheckPlatform; CheckHostApplication]
  | CheckPackageManager => [CheckPlatform; CheckHostApplication; CheckRuntime]
  | InstallDependencies =>
      [CheckPlatform; CheckHostApplication; CheckRuntime; CheckPackageManager]
  | DeployPlugin =>
      [CheckPlatform; CheckHostApplication; CheckRuntime; CheckPackageManager;
       InstallDependencies]
  | VerifyInstallation =>
      [CheckPlatform; CheckHostApplication; CheckRuntime; CheckPackageManager;
       InstallDependencies; DeployPlugin]
  end.

Definition stages_after (s : stage) : list stage :=
  match s with
  | CheckPlatform =>
      [CheckHostApplication; CheckRuntime; CheckPackageManager;
       InstallDependencies; DeployPlugin; VerifyInstallation]
  | CheckHostApplication =>
      [CheckRuntime; CheckPackageManager; InstallDependencies; DeployPlugin;
       VerifyInstallation]
  | CheckRuntime =>
      [CheckPackageManager; InstallDependencies; DeployPlugin; VerifyInstallation]
  | CheckPackageManager => [InstallDependencies; DeployPlugin; VerifyInstallation]
  | InstallDependencies => [DeployPlugin; VerifyInstallation]
  | DeployPlugin => [VerifyInstallation]
  | VerifyInstallation => []
  end.

(** The world reached when every gate of the list has returned true. *)
Fixpoint run_gates (gates : list (M bool)) (w : World) : option World :=
  match gates with
  | [] => Some w
  | g :: rest =>
      match g w with
      | (Ret true, w1) => run_gates rest w1
      | _ => None
      end
  end.

(** A run of gates, each with the status to exit with when it returns
    false; [main] is the run of the seven stages. *)
Fixpoint run_pipeline (stages : list (M bool * Z)) : M unit :=
  match stages with
  | [] => sys_exit 0
  | (g, code) :: rest => exit_unless g code ;;; run_pipeline rest
  end.

Definition staged (l : list stage) : list (M bool * Z) :=
  map (fun s => (gate_of s, status_on_failure s)) l.

(** The world in which the gate of a stage starts, when the earlier gates
    all return true. *)
Definition world_before (s : stage) (w : World) : World :=
  match run_gates (map gate_of (stages_before s)) w with
  | Some w1 => w1
  | None => w
  end.

(** Whether the run reaches a stage: every earlier gate returns true. *)
Definition reaches (s : stage) (w : World) : bool :=
  match run_gates (map gate_of (stages_before s)) w with
  | Some _ => true
  | None => false
  end.

(** The create, delete and copy steps of [copy_plugin_files], in the order
    it performs them, without the handlers it wraps them in. *)
Definition place_tree (source plugin_dir : Path) : M unit :=
  mkdir_parents plugin_dir ;;;
  old <- path_exists (plugin_dir // "ClipABit") ;;
  (if old then shutil_rmtree (plugin_dir // "ClipABit") else ret tt) ;;;
  shutil_copytree source (plugin_dir // "ClipABit").

(** The tree below [root], as a filesystem of its own. *)
Definition subtree (f : FS) (root : Path) : FS := fun r => f (root ++ r).

(** What an entry holds, apart from its permission bits. *)
Definition content (e : option entry) : option (option bytes) :=
  match e with
  | None => None
  | Some Dir => Some None
  | Some (File d _) => Some (Some d)
  end.

(* ------------------------------------------------------------------ *)
(** ** Sample worlds *)

Definition fs_of_list (l : list (Path * entry)) : FS :=
  fun q => match find (fun pe => path_eqb (fst pe) q) l with
           | Some pe => Some (snd pe)
           | None => None
           end.

Definition all_succeed : list string -> spawn :=
  fun _ => Exits (mkCompleted 0 [] []).

Definition no_faults : syscall -> bool := fun _ => false.
Definition no_environ : string -> option string := fun _ => None.

Definition two_dependencies : value :=
  TTable [("project", TTable [("dependencies", TArray [TString "alpha"; TString "beta"])])].

(** A Mac with the host application, the installer unpacked under
    Downloads, and an earlier installation of the plugin in the user's
    plug-in directory. *)
Definition mac_files : list (Path * entry) :=
  [ (["Applications"; "DaVinci Resolve"; "DaVinci Resolve.app"], Dir);
    (["Users"], Dir);
    (["Users"; "ana"], Dir);
    (["Users"; "ana"; "dl"], Dir);
    (["Users"; "ana"; "dl"; "frontend"], Dir);
    (["Users"; "ana"; "dl"; "frontend"; "plugin"], Dir);
    (["Users"; "ana"; "dl"; "frontend"; "plugin"; "clipabit.py"], File [x63] 420);
    (["Users"; "ana"; "dl"; "frontend"; "plugin"; "pyproject.toml"], File [x70] 420);
    (["Users"; "ana"; "Library"], Dir);
    (["Users"; "ana"; "Library"; "Application Support"], Dir);
    (["Users"; "ana"; "Library"; "Application Support"; "Blackmagic Design"], Dir);
    (["Users"; "ana"; "Library"; "Application Support"; "Blackmagic Design";
      "DaVinci Resolve"], Dir);
    (["Users"; "ana"; "Library"; "Application Support"; "Blackmagic Design";
      "DaVinci Resolve"; "Fusion"], Dir);
    (["Users"; "ana"; "Library"; "Application Support"; "Blackmagic Design";
      "DaVinci Resolve"; "Fusion"; "Scripts"], Dir);
    (["Users"; "ana"; "Library"; "Application Support"; "Blackmagic Design";
      "DaVinci Resolve"; "Fusion"; "Scripts"; "Utility"], Dir);
    (["Users"; "ana"; "Library"; "Application Support"; "Blackmagic Design";
      "DaVinci Resolve"; "Fusion"; "Scripts"; "Utility"; "ClipABit"], Dir);
    (["Users"; "ana"; "Library"; "Application Support"; "Blackmagic Design";
      "DaVinci Resolve"; "Fusion"; "Scripts"; "Utility"; "ClipABit"; "old.py"],
     File [x6f] 420) ].

Definition mac_world : World :=
  mkWorld "Darwin" ["Users"; "ana"] ["Users"; "ana"; "dl"] no_environ
          (Some (fun _ => Some two_dependencies))
          (fs_of_list mac_files) no_faults all_succeed [] [].

Definition linux_world : World :=
  mkWorld "Linux" ["home"; "ana"] ["home"; "ana"; "dl"] no_environ None
          (fs_of_list []) no_faults all_succeed [] [].

(** Windows with [PROGRAMDATA] set and [APPDATA] missing. *)
Definition windows_world : World :=
  mkWorld "Windows" ["C:"; "Users"; "ana"] ["C:"; "dl"]
          (fun k => if String.eqb k "PROGRAMDATA" then Some "C:\ProgramData" else None)
          None
          (fs_of_list [ (["C:"; "dl"; "frontend"; "plugin"], Dir) ])
          no_faults all_succeed [] [].

Definition with_manifest (w : World) (parser : option (bytes -> option value))
  (manifest : option entry) : World :=
  mkWorld (system w) (home w) (script_dir w) (environ w) parser
          (fun q => if path_eqb (pyproject_path w) q then manifest else fs w q)
          (faults w) (procs w) (site_packages w) (spawned w).

Definition empty_manifest : value :=
  TTable [("project", TTable [("name", TString "clipabit");
                              ("dependencies", TArray [])])].

(** [mac_world] with a pip that cannot install [beta] and reports it with
    the single byte 0xFF on its error stream. *)
Definition garbled_stderr_world : World :=
  mkWorld "Darwin" ["Users"; "ana"] ["Users"; "ana"; "dl"] no_environ
          (Some (fun _ => Some two_dependencies))
          (fs_of_list mac_files) no_faults
          (fun argv => if list_eq_dec string_dec argv (pip_install_argv "beta")
                       then Exits (mkCompleted 1 [] [xff])
                       else Exits (mkCompleted 0 [] []))
          [] [].

Definition empty_manifest_world : World :=
  with_manifest mac_world (Some (fun _ => Some empty_manifest)) (Some (File [x70] 420)).

(** The world [mac_world] becomes once the plug-in is deployed. *)
Definition deployed_world : World := snd (copy_plugin_files mac_world).

(** [mac_world] with the runtime unable to import the packages. *)
Definition import_fails_world : World :=
  mkWorld "Darwin" ["Users"; "ana"] ["Users"; "ana"; "dl"] no_environ
          (Some (fun _ => Some two_dependencies))
          (fs_of_list mac_files) no_faults
          (fun argv => if list_eq_dec string_dec argv import_check_argv
                       then Exits (mkCompleted 1 [] [])
                       else Exits (mkCompleted 0 [] []))
          [] [].

(** [mac_world] with a pip that cannot install [beta]. *)
Definition beta_fails_world : World :=
  mkWorld "Darwin" ["Users"; "ana"] ["Users"; "ana"; "dl"] no_environ
          (Some (fun _ => Some two_dependencies))
          (fs_of_list mac_files) no_faults
          (fun argv => if list_eq_dec string_dec argv (pip_install_argv "beta")
                       then Exits (mkCompleted 1 [] [x6e; x6f])
                       else Exits (mkCompleted 0 [] []))
          [] [].

(** [mac_world] on a volume that refuses every change of permissions. *)
Definition chmod_refused_world : World :=
  mkWorld "Darwin" ["Users"; "ana"] ["Users"; "ana"; "dl"] no_environ
          (Some (fun _ => Some two_dependencies))
          (fs_of_list mac_files)
          (fun c => match c with Chmod _ => true | _ => false end)
          all_succeed [] [].

Definition mac_target : Path := home mac_world // macos_user_suffix // "ClipABit".

(* ------------------------------------------------------------------ *)
(** ** Probes, and further sample worlds *)

(** Whether a command line, run now, ends with status 0. *)
Definition exits_zero (w : World) (argv : list string) : bool :=
  match procs w argv with
  | Exits cp => (returncode cp =? 0)%Z
  | NoSuchProgram => false
  end.

(** Whether the operating system can start a command line at all. *)
Definition spawnable (w : World) (argv : list string) : bool :=
  match procs w argv with
  | Exits _ => true
  | NoSuchProgram => false
  end.

(** The command lines of the runtime and package-manager checks. *)
Definition python_version_argv : list string := ["python3"; "--version"].
Definition which_python_argv : list string := ["which"; "python3"].
Definition version_floor_argv : list string :=
  ["python3"; "-c"; "import sys; sys.exit(0 if sys.version_info >= (3, 8) else 1)"].
Definition pip_version_argv : list string := ["python3"; "-m"; "pip"; "--version"].
Definition ensurepip_argv : list string := ["python3"; "-m"; "ensurepip"; "--default-pip"].

Definition is_ascii (bs : bytes) : bool :=
  forallb (fun b => (Byte.to_N b <? 128)%N) bs.

Definition with_procs (w : World) (p : list string -> spawn) : World :=
  mkWorld (system w) (home w) (script_dir w) (environ w) (tomllib w)
          (fs w) (faults w) p (site_packages w) (spawned w).

(** Outside the tree at [t], [f'] differs from [f] at most by directories
    that were missing on the way down to [d] and are now there. *)
Definition only_dirs_made (t d : Path) (f f' : FS) : Prop :=
  forall q, is_prefix t q = false ->
            f' q = f q \/
            (f q = None /\ f' q = Some Dir /\ is_prefix q d = true).

(** A computation that, when it raises, raises an ordinary exception and
    never a request to exit. *)
Definition raises_only_exceptions {A} (m : M A) : Prop :=
  forall w e, fst (m w) = Raise e -> is_Exception e = true.

(** [mac_world] without pip: its version check fails, the bootstrap works. *)
Definition no_pip_world : World :=
  with_procs mac_world
    (fun argv => if list_eq_dec string_dec argv pip_version_argv
                 then Exits (mkCompleted 1 [] [])
                 else Exits (mkCompleted 0 [] [])).

(** [mac_world] on a machine where no program can be started. *)
Definition no_programs_world : World := with_procs mac_world (fun _ => NoSuchProgram).

(** [mac_world] whose manifest parses to a document without a project table. *)
Definition no_project_world : World :=
  with_manifest mac_world (Some (fun _ => Some (TTable [("tool", TTable [])])))
                (Some (File [x70] 420)).

(** [mac_world] with a regular file where the Library directory should be. *)
Definition blocked_world : World :=
  with_fs mac_world
    (fun q => if path_eqb ["Users"; "ana"; "Library"] q
              then Some (File [] 420) else fs mac_world q).

(** [mac_world] with a regular file named [plugin] where the plug-in
    source directory should be. *)
Definition file_source_world : World :=
  with_fs mac_world
    (fun q => if path_eqb ["Users"; "ana"; "dl"; "frontend"; "plugin"] q
              then Some (File [] 420) else fs mac_world q).

(** [linux_world] with the plug-in sources unpacked next to the installer
    and no installation yet. *)
Definition fresh_world : World :=
  with_fs linux_world
    (fs_of_list [ (["home"; "ana"; "dl"; "frontend"; "plugin"], Dir);
                  (["home"; "ana"; "dl"; "frontend"; "plugin"; "clipabit.py"],
                   File [x63] 420) ]).

(** [windows_world] without the plug-in sources next to the installer. *)
Definition windows_no_source_world : World := with_fs windows_world (fs_of_list []).

(* ------------------------------------------------------------------ *)
(** ** Unfolding the monad *)

Ltac unfold_monad :=
  unfold exit_unless, sys_exit, try_except, of_option, path_exists, os_path_exists,
         os_getenv, Path_of, gets, bind, ret, raise in *.

Lemma string_eqb_neq (a b : string) : a <> b -> String.eqb a b = false.
Proof. intro H. now apply String.eqb_neq. Qed.

(* ------------------------------------------------------------------ *)
(** ** Platform gate *)

Lemma check_platform_unsupported (w : World) :
  system w <> "Darwin" -> system w <> "Windows" ->
  check_platform w = (Ret false, w).
Proof.
  intros Hd Hw. unfold check_platform. unfold_monad.
  now rewrite (string_eqb_neq _ _ Hd), (string_eqb_neq _ _ Hw).
Qed.

(** C7: on an operating system other than the two supported ones the
    platform gate returns false and the run ends with exit status 1 in the
    very world it started from: no file was created, removed or changed and
    no process was spawned. *)
Theorem unsupported_platform_halts (w : World) :
  system w <> "Darwin" -> system w <> "Windows" ->
  check_platform w = (Ret false, w) /\
  main w = (Raise (SystemExit 1), w) /\
  exit_status (fst (main w)) = 1%Z /\
  fs (snd (main w)) = fs w /\
  spawned (snd (main w)) = spawned w.
Proof.
  intros Hd Hw.
  pose proof (check_platform_unsupported w Hd Hw) as Hp.
  assert (Hm : main w = (Raise (SystemExit 1), w)).
  { unfold main, exit_unless, bind at 1. unfold bind at 1. now rewrite Hp. }
  rewrite Hm. repeat split; auto.
Qed.

Lemma unsupported_platform_halts_witness :
  main linux_world = (Raise (SystemExit 1), linux_world).
Proof.
  apply (unsupported_platform_halts linux_world); simpl; discriminate.
Defined.

(* ------------------------------------------------------------------ *)
(** ** Target directory *)

Lemma choose_directory_rule (u s : Path) (w : World) :
  choose_directory u s w = (Ret (resolution_rule (fs w) u s), w).
Proof.
  unfold choose_directory, resolution_rule. unfold_monad.
  destruct (present (fs w u)), (present (fs w s)); reflexivity.
Qed.

Lemma resolve_returns (w : World) (u s : Path) :
  user_scope_dir w = Some u -> system_scope_dir w = Some s ->
  get_resolve_plugin_directory w = (Ret (resolution_rule (fs w) u s), w).
Proof.
  unfold user_scope_dir, system_scope_dir, get_resolve_plugin_directory.
  unfold gets, bind at 1.
  destruct (String.eqb (system w) "Darwin") eqn:Hd.
  - intros Hu Hs. injection Hu as <-. injection Hs as <-.
    unfold bind, gets. apply choose_directory_rule.
  - destruct (String.eqb (system w) "Windows") eqn:Hw; [|discriminate].
    unfold is_windows in *.
    unfold os_getenv, Path_of, gets, bind, is_windows. rewrite Hw.
    destruct (environ w "APPDATA") as [a|]; [|discriminate].
    destruct (environ w "PROGRAMDATA") as [p|]; [|discriminate].
    simpl. rewrite Hw. intros Hu Hs. injection Hu as <-. injection Hs as <-.
    apply choose_directory_rule.
Qed.

(** Where both candidate directories are defined (macOS, and Windows with
    both variables set), the resolved directory is the user-scope one
    unless that is absent while the system-scope one exists, in which case
    it is the system-scope one; the call leaves the world as it found it,
    so a second call in the same state returns the same path. *)
Theorem resolve_target_directory (w : World) (u s : Path) :
  supported w ->
  user_scope_dir w = Some u -> system_scope_dir w = Some s ->
  get_resolve_plugin_directory w
    = (Ret (if negb (present (fs w u)) && present (fs w s) then s else u), w) /\
  (first <- get_resolve_plugin_directory ;;
   second <- get_resolve_plugin_directory ;;
   ret (first, second)) w
    = (Ret (resolution_rule (fs w) u s, resolution_rule (fs w) u s), w).
Proof.
  intros _ Hu Hs. pose proof (resolve_returns w u s Hu Hs) as H.
  split; [exact H|].
  unfold bind at 1. rewrite H. unfold bind at 1. rewrite H. reflexivity.
Qed.

Lemma resolve_target_directory_witness :
  fst (get_resolve_plugin_directory mac_world)
    = Ret (home mac_world // macos_user_suffix).
Proof.
  pose proof (resolve_target_directory mac_world
                (home mac_world // macos_user_suffix)
                (parts false macos_system_dir)
                (or_introl eq_refl) eq_refl eq_refl) as [H _].
  rewrite H. reflexivity.
Defined.

(** C2, at the failing input: Windows is a supported platform, and with
    [APPDATA] unset (here [PROGRAMDATA] is set) the resolver returns
    neither the user-scope nor the system-scope path: building the
    user-scope path from the missing value raises [TypeError], before any
    existence check is made. *)
Theorem resolve_fails_on_windows_without_appdata :
  check_platform windows_world = (Ret true, windows_world) /\
  environ windows_world "APPDATA" = None /\
  environ windows_world "PROGRAMDATA" = Some "C:\ProgramData" /\
  get_resolve_plugin_directory windows_world = (Raise TypeError, windows_world).
Proof. repeat split; reflexivity. Qed.

(** C10: on Windows with [APPDATA] or [PROGRAMDATA] unset the resolver
    raises instead of returning, and [copy_plugin_files], which calls it
    outside its handlers, lets the exception through whenever the plug-in
    source directory is there: it neither returns false nor deploys. *)
Theorem windows_unset_variable_raises (w : World) :
  system w = "Windows" ->
  environ w "APPDATA" = None \/ environ w "PROGRAMDATA" = None ->
  get_resolve_plugin_directory w = (Raise TypeError, w) /\
  (present (fs w (plugin_source w)) = true ->
   copy_plugin_files w = (Raise TypeError, w)).
Proof.
  intros Hs Hv.
  assert (H : get_resolve_plugin_directory w = (Raise TypeError, w)).
  { unfold get_resolve_plugin_directory. unfold_monad. rewrite Hs. simpl.
    destruct Hv as [Ha | Hp].
    - rewrite Ha. reflexivity.
    - rewrite Hp. destruct (environ w "APPDATA"); reflexivity. }
  split; [exact H|].
  intro Hsrc. unfold copy_plugin_files. unfold gets, path_exists.
  unfold bind at 1. unfold bind at 1. unfold gets. rewrite Hsrc. simpl.
  unfold bind at 1. rewrite H. reflexivity.
Qed.

Lemma windows_unset_variable_raises_witness :
  environ windows_world "APPDATA" = None /\
  present (fs windows_world (plugin_source windows_world)) = true /\
  copy_plugin_files windows_world = (Raise TypeError, windows_world).
Proof.
  split; [reflexivity|]. split; [reflexivity|].
  apply (windows_unset_variable_raises windows_world eq_refl (or_introl eq_refl)).
  reflexivity.
Defined.

(* ------------------------------------------------------------------ *)
(** ** Dependency resolution *)

Lemma open_rb_world (p : Path) (w : World) : snd (open_rb p w) = w.
Proof.
  unfold open_rb, refused, bind.
  destruct (faults w (Open p)); [reflexivity|].
  destruct (fs w p) as [[d m|]|]; reflexivity.
Qed.

Lemma open_rb_raises (p : Path) (w w' : World) (e : exn) :
  open_rb p w = (Raise e, w') -> is_Exception e = true.
Proof.
  unfold open_rb, refused, bind.
  destruct (faults w (Open p)).
  - intro H. injection H as <- _. reflexivity.
  - destruct (fs w p) as [[d m|]|]; intro H; try discriminate;
      injection H as <- _; reflexivity.
Qed.

Lemma open_rb_returns (p : Path) (w w' : World) (raw : bytes) :
  open_rb p w = (Ret raw, w') -> present (fs w p) = true /\ w' = w.
Proof.
  intro H. pose proof (open_rb_world p w) as Hw. rewrite H in Hw. simpl in Hw.
  split; [|exact Hw].
  revert H. unfold open_rb, refused, bind.
  destruct (faults w (Open p)); [discriminate|].
  destruct (fs w p) as [[d m|]|]; [reflexivity|discriminate|discriminate].
Qed.

(** The resolver only reads: it returns a value and leaves the world as it
    was. *)
Lemma get_dependencies_total (w : World) :
  exists v, get_dependencies_from_pyproject w = (Ret v, w).
Proof.
  unfold get_dependencies_from_pyproject.
  unfold gets, path_exists. unfold bind at 1. unfold bind at 1. unfold gets.
  destruct (present (fs w (pyproject_path w))); simpl; [|eexists; reflexivity].
  unfold bind at 1.
  destruct (tomllib w) as [load|]; [|eexists; reflexivity].
  unfold try_except. unfold bind at 1.
  pose proof (open_rb_world (pyproject_path w) w) as Hw.
  destruct (open_rb (pyproject_path w) w) as [[raw|e] w1] eqn:Ho; simpl in Hw; subst w1.
  2:{ rewrite (open_rb_raises _ _ _ _ Ho). eexists; reflexivity. }
  unfold of_option, dict_get, bind, ret, raise.
  destruct (load raw) as [data|]; simpl; [|eexists; reflexivity].
  destruct data; simpl; try (eexists; reflexivity).
  destruct (assoc "project" fields) as [project|]; simpl.
  - destruct project; simpl; try (eexists; reflexivity).
    destruct (assoc "dependencies" fields0) as [deps|]; simpl; [|eexists; reflexivity].
    destruct deps as [s|z|nz|b| |items|tbl]; simpl;
      repeat match goal with
             | |- context [if ?c then _ else _] => destruct c; simpl
             end; eexists; reflexivity.
  - eexists; reflexivity.
Qed.

Lemma fst_snd_pair {A B} (x : A * B) (a : A) (b : B) :
  fst x = a -> snd x = b -> x = (a, b).
Proof. destruct x; simpl; congruence. Qed.

(** C4: with the manifest missing, the parser module unavailable, or
    reading or parsing the manifest raising, the resolver returns exactly
    the three hardcoded requirements; with a manifest that parses and
    declares an empty dependency list it returns the empty list instead. *)
Theorem resolve_dependencies_cases (w : World) (st : manifest_state) :
  in_state w st ->
  get_dependencies_from_pyproject w
    = (Ret (match st with
            | EmptyDependencyTable => TArray []
            | _ => TArray [ TString "pyqt6>=6.10.0";
                            TString "requests>=2.31.0";
                            TString "watchdog>=3.0.0" ]
            end), w).
Proof.
  intro H.
  unfold get_dependencies_from_pyproject.
  unfold gets, path_exists. unfold bind at 1. unfold bind at 1. unfold gets.
  destruct st; simpl in H.
  - rewrite H. reflexivity.
  - destruct (present (fs w (pyproject_path w))); simpl; [|reflexivity].
    unfold bind at 1. rewrite H. reflexivity.
  - destruct H as (Hp & load & e & Hl & Ho). rewrite Hp. simpl.
    unfold bind at 1. rewrite Hl.
    pose proof (fst_snd_pair _ _ _ Ho (open_rb_world _ w)) as Ho'.
    unfold try_except. unfold bind at 1. rewrite Ho'.
    rewrite (open_rb_raises _ _ _ _ Ho'). reflexivity.
  - destruct H as (load & raw & Hl & Ho & Hn).
    pose proof (fst_snd_pair _ _ _ Ho (open_rb_world _ w)) as Ho'.
    destruct (open_rb_returns _ _ _ _ Ho') as [Hp _]. rewrite Hp. simpl.
    unfold bind at 1. rewrite Hl.
    unfold try_except. unfold bind at 1. rewrite Ho'.
    unfold of_option, bind, raise. rewrite Hn. reflexivity.
  - destruct H as (load & raw & data & Hl & Ho & Hd & He).
    pose proof (fst_snd_pair _ _ _ Ho (open_rb_world _ w)) as Ho'.
    destruct (open_rb_returns _ _ _ _ Ho') as [Hp _]. rewrite Hp. simpl.
    unfold bind at 1. rewrite Hl.
    unfold try_except. unfold bind at 1. rewrite Ho'.
    unfold of_option, bind, ret. rewrite Hd.
    destruct data; simpl in He; try discriminate.
    unfold dict_get at 1. unfold ret.
    destruct (assoc "project" fields) as [project|]; [|discriminate].
    destruct project; try discriminate.
    simpl. rewrite He. reflexivity.
Qed.

Lemma resolve_dependencies_cases_witness :
  fst (get_dependencies_from_pyproject (with_manifest mac_world None None))
    = Ret fallback_dependencies /\
  fst (get_dependencies_from_pyproject mac_world) <> Ret fallback_dependencies /\
  fst (get_dependencies_from_pyproject
         (with_manifest mac_world None (Some (File [x70] 420))))
    = Ret fallback_dependencies /\
  fst (get_dependencies_from_pyproject
         (with_manifest mac_world (Some (fun _ => Some empty_manifest)) (Some Dir)))
    = Ret fallback_dependencies /\
  fst (get_dependencies_from_pyproject
         (with_manifest mac_world (Some (fun _ => None)) (Some (File [x70] 420))))
    = Ret fallback_dependencies /\
  fst (get_dependencies_from_pyproject
         (with_manifest mac_world (Some (fun _ => Some empty_manifest))
                        (Some (File [x70] 420))))
    = Ret (TArray []).
Proof.
  split.
  { rewrite (resolve_dependencies_cases _ ManifestMissing); reflexivity. }
  split.
  { vm_compute. discriminate. }
  split.
  { rewrite (resolve_dependencies_cases _ ParserUnavailable); reflexivity. }
  split.
  { rewrite (resolve_dependencies_cases _ ReadingRaises); [reflexivity|].
    split; [reflexivity|]. eexists _, IsADirectoryError. split; reflexivity. }
  split.
  { rewrite (resolve_dependencies_cases _ ParsingRaises); [reflexivity|].
    eexists _, [x70]. repeat split; reflexivity. }
  rewrite (resolve_dependencies_cases _ EmptyDependencyTable); [reflexivity|].
  eexists _, [x70], empty_manifest. repeat split; reflexivity.
Defined.

(* ------------------------------------------------------------------ *)
(** ** Dependency installation *)

Lemma installs_pip_install (dep : string) : installs (pip_install_argv dep) = Some dep.
Proof.
  unfold installs, pip_install_argv.
  destruct (list_eq_dec string_dec _ _) as [_|Hn]; [reflexivity|now elim Hn].
Qed.

Lemma pip_install_succeeds (dep : string) (w : World) (cp : CompletedProcess) :
  procs w (pip_install_argv dep) = Exits cp -> returncode cp = 0%Z ->
  subprocess_run (pip_install_argv dep) true true w
    = (Ret cp, with_package (with_spawned w (pip_install_argv dep)) dep).
Proof.
  intros Hp Hr. unfold subprocess_run.
  rewrite Hp, installs_pip_install, Hr. reflexivity.
Qed.

Lemma pip_install_fails (dep : string) (w : World) (cp : CompletedProcess) :
  procs w (pip_install_argv dep) = Exits cp -> returncode cp <> 0%Z ->
  subprocess_run (pip_install_argv dep) true true w
    = (Raise (CalledProcessError (returncode cp) (Some (stderr cp))),
       with_spawned w (pip_install_argv dep)).
Proof.
  intros Hp Hr. unfold subprocess_run.
  apply Z.eqb_neq in Hr.
  rewrite Hp, installs_pip_install, Hr. reflexivity.
Qed.

Lemma install_each_second_fails (w : World) (A B : string) (rest : list value)
      (cpA cpB : CompletedProcess) :
  procs w (pip_install_argv A) = Exits cpA -> returncode cpA = 0%Z ->
  procs w (pip_install_argv B) = Exits cpB -> returncode cpB <> 0%Z ->
  install_each (TString A :: TString B :: rest) w
    = (match stderr cpB with
       | [] => Ret false
       | _ => match utf8_decode (stderr cpB) with
              | Some _ => Ret false
              | None => Raise UnicodeDecodeError
              end
       end, after_two_installs w A B).
Proof.
  intros HA HrA HB HrB.
  cbn [install_each]. unfold bind at 1. unfold try_except at 1. unfold bind at 1.
  rewrite (pip_install_succeeds A w cpA HA HrA). cbn [ret].
  set (w1 := with_package (with_spawned w (pip_install_argv A)) A).
  unfold bind at 1. unfold try_except at 1. unfold bind at 1.
  assert (HB1 : procs w1 (pip_install_argv B) = Exits cpB) by exact HB.
  rewrite (pip_install_fails B w1 cpB HB1 HrB). cbn [is_CalledProcessError].
  unfold error_text, after_two_installs. fold w1.
  destruct (stderr cpB) as [|b bs]; [reflexivity|].
  unfold of_option, bind, ret, raise.
  destruct (utf8_decode (b :: bs)); reflexivity.
Qed.

(** When the second of the resolved requirements fails to install and its
    captured error stream is empty or well-formed UTF-8, the installer
    returns false having spawned exactly the two installs, the first
    requirement staying installed. *)
Lemma install_stops_at_first_failure (w : World) (A B : string) (rest : list value)
      (cpA cpB : CompletedProcess) :
  fst (get_dependencies_from_pyproject w) = Ret (TArray (TString A :: TString B :: rest)) ->
  procs w (pip_install_argv A) = Exits cpA -> returncode cpA = 0%Z ->
  procs w (pip_install_argv B) = Exits cpB -> returncode cpB <> 0%Z ->
  utf8_decode (stderr cpB) <> None ->
  install_dependencies w = (Ret false, after_two_installs w A B) /\
  spawned (after_two_installs w A B)
    = spawned w ++ [pip_install_argv A; pip_install_argv B] /\
  site_packages (after_two_installs w A B) = site_packages w ++ [A].
Proof.
  intros Hg HA HrA HB HrB Hd.
  destruct (get_dependencies_total w) as [v Hv]. rewrite Hv in Hg. simpl in Hg.
  injection Hg as ->.
  split; [|split].
  - unfold install_dependencies. unfold bind at 1. rewrite Hv.
    cbn [truthy negb py_iter of_option]. unfold bind at 1. cbn [ret].
    rewrite (install_each_second_fails w A B rest cpA cpB HA HrA HB HrB).
    destruct (stderr cpB) as [|b bs]; [reflexivity|].
    destruct (utf8_decode (b :: bs)); [reflexivity|now elim Hd].
  - unfold after_two_installs. simpl. now rewrite <- app_assoc.
  - reflexivity.
Qed.

Example install_stops_at_first_failure_beta :
  install_dependencies beta_fails_world
    = (Ret false, after_two_installs beta_fails_world "alpha" "beta").
Proof.
  apply (install_stops_at_first_failure beta_fails_world "alpha" "beta" []
           (mkCompleted 0 [] []) (mkCompleted 1 [] [x6e; x6f]));
    try reflexivity; vm_compute; discriminate.
Qed.

(** C5, at the failing input: the resolved requirements are [alpha; beta],
    installing [alpha] succeeds, installing [beta] exits with status 1 and
    an error stream that is not UTF-8.  The installer spawns the two
    installs and keeps [alpha] installed, but it does not return false: the
    exception raised while the error text is built leaves
    [install_dependencies], and the run ends with status 1 on that
    exception. *)
Theorem install_failure_with_garbled_stderr :
  fst (get_dependencies_from_pyproject garbled_stderr_world)
    = Ret (TArray [TString "alpha"; TString "beta"]) /\
  procs garbled_stderr_world (pip_install_argv "alpha") = Exits (mkCompleted 0 [] []) /\
  procs garbled_stderr_world (pip_install_argv "beta") = Exits (mkCompleted 1 [] [xff]) /\
  fst (install_dependencies garbled_stderr_world) = Raise UnicodeDecodeError /\
  spawned (snd (install_dependencies garbled_stderr_world))
    = [pip_install_argv "alpha"; pip_install_argv "beta"] /\
  site_packages (snd (install_dependencies garbled_stderr_world)) = ["alpha"] /\
  fst (main garbled_stderr_world) = Raise UnicodeDecodeError.
Proof. repeat split; vm_compute; reflexivity. Qed.

(** C8: when the resolved dependency list is empty, the installer returns
    true in the world it started from: nothing was spawned. *)
Theorem install_nothing_when_empty (w : World) :
  fst (get_dependencies_from_pyproject w) = Ret (TArray []) ->
  install_dependencies w = (Ret true, w) /\
  commands_run install_dependencies w = [].
Proof.
  intro Hg.
  destruct (get_dependencies_total w) as [v Hv]. rewrite Hv in Hg. simpl in Hg.
  injection Hg as ->.
  assert (H : install_dependencies w = (Ret true, w)).
  { unfold install_dependencies. unfold bind at 1. rewrite Hv. reflexivity. }
  split; [exact H|].
  unfold commands_run. rewrite H. simpl. apply skipn_all.
Qed.

Lemma install_nothing_when_empty_witness :
  install_dependencies empty_manifest_world = (Ret true, empty_manifest_world).
Proof.
  apply (install_nothing_when_empty empty_manifest_world). reflexivity.
Defined.

(* ------------------------------------------------------------------ *)
(** ** Verification *)

Lemma resolve_world (w : World) : snd (get_resolve_plugin_directory w) = w.
Proof.
  unfold get_resolve_plugin_directory. unfold gets. unfold bind at 1.
  destruct (String.eqb (system w) "Darwin").
  - unfold bind, gets. now rewrite choose_directory_rule.
  - destruct (String.eqb (system w) "Windows"); [|reflexivity].
    unfold os_getenv, Path_of, gets, bind.
    destruct (environ w "APPDATA"); [|reflexivity].
    destruct (environ w "PROGRAMDATA"); [|reflexivity].
    now rewrite choose_directory_rule.
Qed.

Lemma subprocess_run_spawned (argv : list string) (check capture : bool) (w : World) :
  spawned (snd (subprocess_run argv check capture w)) = spawned w ++ [argv].
Proof.
  unfold subprocess_run.
  destruct (procs w argv) as [|cp]; [reflexivity|].
  destruct (installs argv), (returncode cp =? 0)%Z, check; reflexivity.
Qed.

Lemma skipn_length_app {A} (l l' : list A) : skipn (List.length l) (l ++ l') = l'.
Proof. induction l; simpl; auto. Qed.

(** C9: whenever the verifier finds the deployed entry point, the one
    command it spawns is the runtime with the fixed statement importing
    PyQt6, requests and watchdog, whatever the manifest declares and
    whatever pip installed; worlds that differ in those give the same
    command. *)
Theorem verify_imports_fixed_packages (w : World) (d : Path) :
  fst (get_resolve_plugin_directory w) = Ret d ->
  present (fs w (d // "ClipABit/clipabit.py")) = true ->
  commands_run verify_installation w
    = [["python3"; "-c"; "import PyQt6, requests, watchdog"]] /\
  (forall (w2 : World) (d2 : Path),
      fst (get_resolve_plugin_directory w2) = Ret d2 ->
      present (fs w2 (d2 // "ClipABit/clipabit.py")) = true ->
      commands_run verify_installation w2 = commands_run verify_installation w).
Proof.
  assert (H : forall w d, fst (get_resolve_plugin_directory w) = Ret d ->
                          present (fs w (d // "ClipABit/clipabit.py")) = true ->
                          commands_run verify_installation w = [import_check_argv]).
  { clear. intros w d Hd Hp.
    pose proof (fst_snd_pair _ _ _ Hd (resolve_world w)) as Hr.
    unfold commands_run, verify_installation.
    unfold bind at 1. rewrite Hr.
    unfold path_exists, gets. unfold bind at 1. rewrite Hp. cbn [negb].
    unfold try_except. unfold bind at 1.
    pose proof (subprocess_run_spawned import_check_argv true true w) as Hs.
    destruct (subprocess_run import_check_argv true true w) as [[cp|e] w1];
      simpl in Hs.
    - cbn [ret snd]. rewrite Hs. apply skipn_length_app.
    - destruct (is_CalledProcessError e); cbn [ret snd]; rewrite Hs;
        apply skipn_length_app. }
  intros Hd Hp. split.
  - exact (H w d Hd Hp).
  - intros w2 d2 Hd2 Hp2. now rewrite (H w d Hd Hp), (H w2 d2 Hd2 Hp2).
Qed.

Lemma verify_imports_fixed_packages_witness :
  fst (get_dependencies_from_pyproject deployed_world)
    = Ret (TArray [TString "alpha"; TString "beta"]) /\
  commands_run verify_installation deployed_world
    = [["python3"; "-c"; "import PyQt6, requests, watchdog"]].
Proof.
  split; [reflexivity|].
  apply (verify_imports_fixed_packages deployed_world
           (home mac_world // macos_user_suffix)); reflexivity.
Defined.

(* ------------------------------------------------------------------ *)
(** ** The pipeline *)

Lemma stages_split (s : stage) :
  all_stages = stages_before s ++ s :: stages_after s.
Proof. destruct s; reflexivity. Qed.

Lemma main_is_pipeline : main = run_pipeline (staged all_stages).
Proof. reflexivity. Qed.

Lemma run_pipeline_gate_fails (before later : list (M bool * Z)) (g : M bool) (code : Z) :
  forall w w1 w2,
    run_gates (map fst before) w = Some w1 ->
    g w1 = (Ret false, w2) ->
    run_pipeline (before ++ (g, code) :: later) w = (Raise (SystemExit code), w2).
Proof.
  induction before as [|[g0 c0] before IH]; intros w w1 w2 Hrun Hg.
  - simpl in Hrun. injection Hrun as <-.
    simpl. unfold exit_unless, bind, sys_exit, raise. now rewrite Hg.
  - simpl in Hrun. simpl.
    unfold exit_unless at 1. unfold bind at 1. unfold bind at 1.
    destruct (g0 w) as [[[|]|e] w0]; try discriminate.
    cbn [negb ret]. now apply (IH w0 w1 w2).
Qed.

(** C1: in any run, when the gates before a stage have all returned true
    and the gate of that stage returns false, [main] ends right there, in
    the world that gate left, whatever the later stages would do; the exit
    status is 1 for every stage but the last and 0 for the verifier. *)
Theorem gate_failure_exit_status (w : World) (s : stage) :
  reaches s w = true ->
  fst (gate_of s (world_before s w)) = Ret false ->
  main w = (Raise (SystemExit (match s with VerifyInstallation => 0 | _ => 1 end)),
            snd (gate_of s (world_before s w))) /\
  exit_status (fst (main w)) = (match s with VerifyInstallation => 0 | _ => 1 end)%Z /\
  (forall later : list (M bool * Z),
      run_pipeline (staged (stages_before s) ++ (gate_of s, status_on_failure s) :: later) w
        = main w).
Proof.
  unfold reaches, world_before. intros Hreach Hg.
  destruct (run_gates (map gate_of (stages_before s)) w) as [w1|] eqn:Hrun;
    [clear Hreach|discriminate].
  pose proof (fst_snd_pair _ _ _ Hg eq_refl) as Hg'.
  set (w2 := snd (gate_of s w1)) in *.
  assert (Hmap : map fst (staged (stages_before s)) = map gate_of (stages_before s)).
  { unfold staged. rewrite map_map. reflexivity. }
  rewrite <- Hmap in Hrun.
  assert (Hsplit : staged all_stages
                   = staged (stages_before s)
                       ++ (gate_of s, status_on_failure s) :: staged (stages_after s)).
  { rewrite (stages_split s) at 1. unfold staged. now rewrite map_app. }
  assert (Hmain : main w = (Raise (SystemExit (status_on_failure s)), w2)).
  { rewrite main_is_pipeline, Hsplit.
    exact (run_pipeline_gate_fails _ _ _ _ w w1 w2 Hrun Hg'). }
  assert (Hcode : status_on_failure s
                  = match s with VerifyInstallation => 0%Z | _ => 1%Z end).
  { destruct s; reflexivity. }
  rewrite <- Hcode. split; [exact Hmain|]. split.
  - rewrite Hmain. reflexivity.
  - intro later. rewrite Hmain.
    exact (run_pipeline_gate_fails _ later _ _ w w1 w2 Hrun Hg').
Qed.

Lemma gate_failure_exit_status_witness :
  exit_status (fst (main linux_world)) = 1%Z /\
  exit_status (fst (main beta_fails_world)) = 1%Z /\
  exit_status (fst (main import_fails_world)) = 0%Z.
Proof.
  split; [|split].
  - refine (proj1 (proj2 (gate_failure_exit_status linux_world CheckPlatform _ _)));
      vm_compute; reflexivity.
  - refine (proj1 (proj2 (gate_failure_exit_status beta_fails_world
                            InstallDependencies _ _))); vm_compute; reflexivity.
  - refine (proj1 (proj2 (gate_failure_exit_status import_fails_world
                            VerifyInstallation _ _))); vm_compute; reflexivity.
Defined.

(* ------------------------------------------------------------------ *)
(** ** Deployment *)

Lemma refused_world (c : syscall) (w : World) : snd (refused c w) = w.
Proof. unfold refused. destruct (faults w c); reflexivity. Qed.

Lemma mkdir_parents_raises (p : Path) (w w' : World) (e : exn) :
  mkdir_parents p w = (Raise e, w') -> is_Exception e = true.
Proof.
  unfold mkdir_parents, refused, bind.
  destruct (faults w (Mkdir p)).
  - intro H. injection H as <- _. reflexivity.
  - destruct (make_dirs (fs w) p); [discriminate|].
    intro H. injection H as <- _. destruct (is_file (fs w p)); reflexivity.
Qed.

Lemma shutil_rmtree_raises (p : Path) (w w' : World) (e : exn) :
  shutil_rmtree p w = (Raise e, w') -> is_Exception e = true.
Proof.
  unfold shutil_rmtree, refused, bind.
  destruct (faults w (Rmtree p)).
  - intro H. injection H as <- _. reflexivity.
  - destruct (fs w p) as [[dt m|]|]; intro H; try discriminate;
      injection H as <- _; reflexivity.
Qed.

Lemma shutil_copytree_raises (s t : Path) (w w' : World) (e : exn) :
  shutil_copytree s t w = (Raise e, w') -> is_Exception e = true.
Proof.
  unfold shutil_copytree, refused, bind.
  destruct (faults w (Copytree s t)).
  - intro H. injection H as <- _. reflexivity.
  - destruct (fs w s) as [[dt m|]|]; try (intro H; injection H as <- _; reflexivity).
    destruct (present (fs w t)); [intro H; injection H as <- _; reflexivity|].
    destruct (make_dirs (fs w) t); [discriminate|].
    intro H. injection H as <- _. reflexivity.
Qed.

Lemma os_chmod_raises (p : Path) (m : N) (w w' : World) (e : exn) :
  os_chmod p m w = (Raise e, w') -> is_Exception e = true /\ w' = w.
Proof.
  unfold os_chmod, refused, bind.
  destruct (faults w (Chmod p)).
  - intro H. injection H as <- <-. split; reflexivity.
  - destruct (fs w p); [discriminate|].
    intro H. injection H as <- <-. split; reflexivity.
Qed.

(** [copy_plugin_files] once the source is found and the directory
    resolved: it succeeds exactly when [place_tree] and the permission
    change go through, and returns false on the first of them that raises. *)
Lemma copy_plugin_files_steps (w : World) (d : Path) :
  present (fs w (plugin_source w)) = true ->
  fst (get_resolve_plugin_directory w) = Ret d ->
  copy_plugin_files w
    = match place_tree (plugin_source w) d w with
      | (Raise _, w') => (Ret false, w')
      | (Ret _, copied) =>
          if present (fs copied (d // "ClipABit" // "clipabit.py"))
          then match os_chmod (d // "ClipABit" // "clipabit.py") 493 copied with
               | (Raise _, w') => (Ret false, w')
               | (Ret _, w') => (Ret true, w')
               end
          else (Ret true, copied)
      end.
Proof.
  intros Hsrc Hd.
  pose proof (fst_snd_pair _ _ _ Hd (resolve_world w)) as Hr.
  unfold copy_plugin_files, place_tree, bind, try_except, path_exists, gets, ret.
  rewrite Hsrc. cbn [negb]. rewrite Hr.
  destruct (mkdir_parents d w) as [[[]|e1] w1] eqn:Hmk.
  2:{ now rewrite (mkdir_parents_raises _ _ _ _ Hmk). }
  cbn [negb].
  destruct (present (fs w1 (d // "ClipABit"))).
  - destruct (shutil_rmtree (d // "ClipABit") w1) as [[[]|e2] w2] eqn:Hrm.
    2:{ now rewrite (shutil_rmtree_raises _ _ _ _ Hrm). }
    cbn [negb].
    destruct (shutil_copytree (plugin_source w) (d // "ClipABit") w2)
      as [[[]|e3] w3] eqn:Hcp.
    2:{ now rewrite (shutil_copytree_raises _ _ _ _ _ Hcp). }
    destruct (present (fs w3 (d // "ClipABit" // "clipabit.py"))); [|reflexivity].
    destruct (os_chmod (d // "ClipABit" // "clipabit.py") 493 w3) as [[[]|e4] w4] eqn:Hch.
    + reflexivity.
    + now destruct (os_chmod_raises _ _ _ _ _ Hch) as [-> _].
  - cbn [negb].
    destruct (shutil_copytree (plugin_source w) (d // "ClipABit") w1)
      as [[[]|e3] w3] eqn:Hcp.
    2:{ now rewrite (shutil_copytree_raises _ _ _ _ _ Hcp). }
    destruct (present (fs w3 (d // "ClipABit" // "clipabit.py"))); [|reflexivity].
    destruct (os_chmod (d // "ClipABit" // "clipabit.py") 493 w3) as [[[]|e4] w4] eqn:Hch.
    + reflexivity.
    + now destruct (os_chmod_raises _ _ _ _ _ Hch) as [-> _].
Qed.

Lemma os_chmod_raise_world (p : Path) (m : N) (w : World) (e : exn) :
  fst (os_chmod p m w) = Raise e -> os_chmod p m w = (Raise e, w).
Proof.
  intro H. destruct (os_chmod p m w) as [o w'] eqn:Ho. simpl in H. subst o.
  now destruct (os_chmod_raises _ _ _ _ _ Ho) as [_ ->].
Qed.

(** C6, as the code has it: when the tree has been copied into place and
    setting the permission of the deployed entry point then raises, the
    handler around the copy catches the exception and [copy_plugin_files]
    returns false, the copied tree staying where it is. *)
Theorem chmod_failure_returns_false (w : World) (d : Path) (e : exn) :
  present (fs w (plugin_source w)) = true ->
  fst (get_resolve_plugin_directory w) = Ret d ->
  fst (place_tree (plugin_source w) d w) = Ret tt ->
  present (fs (snd (place_tree (plugin_source w) d w))
              (d // "ClipABit" // "clipabit.py")) = true ->
  fst (os_chmod (d // "ClipABit" // "clipabit.py") 493
                (snd (place_tree (plugin_source w) d w))) = Raise e ->
  copy_plugin_files w = (Ret false, snd (place_tree (plugin_source w) d w)).
Proof.
  intros Hsrc Hd Hplace Hentry Hch.
  rewrite (copy_plugin_files_steps w d Hsrc Hd).
  destruct (place_tree (plugin_source w) d w) as [o copied]. simpl in *. subst o.
  rewrite Hentry. now rewrite (os_chmod_raise_world _ _ _ _ Hch).
Qed.

Lemma chmod_failure_returns_false_witness :
  fst (copy_plugin_files chmod_refused_world) = Ret false.
Proof.
  rewrite (chmod_failure_returns_false chmod_refused_world
             (home mac_world // macos_user_suffix) PermissionError);
    vm_compute; reflexivity.
Defined.

(** The claim of C6 fails on [chmod_refused_world]: the copy goes through,
    the deployed entry point is there with the content of the source, the
    permission change raises, and the result is false, not true. *)
Lemma chmod_failure_not_ignored :
  fst (place_tree (plugin_source chmod_refused_world)
                  (home mac_world // macos_user_suffix) chmod_refused_world) = Ret tt /\
  fs (snd (copy_plugin_files chmod_refused_world)) (mac_target // "clipabit.py")
    = Some (File [x63] 420) /\
  fst (os_chmod (mac_target // "clipabit.py") 493
                (snd (place_tree (plugin_source chmod_refused_world)
                                 (home mac_world // macos_user_suffix)
                                 chmod_refused_world))) = Raise PermissionError /\
  fst (copy_plugin_files chmod_refused_world) = Ret false /\
  fst (copy_plugin_files chmod_refused_world) <> Ret true.
Proof.
  repeat split; try (vm_compute; reflexivity).
  vm_compute. discriminate.
Qed.

(* ------------------------------------------------------------------ *)
(** ** Paths and trees *)

Lemma strip_prefix_app (p r : Path) : strip_prefix p (p ++ r) = Some r.
Proof.
  induction p as [|a p IH]; simpl; [reflexivity|].
  now rewrite String.eqb_refl.
Qed.

Lemma strip_prefix_inv (p q r : Path) : strip_prefix p q = Some r -> q = p ++ r.
Proof.
  revert q. induction p as [|a p IH]; intros q H; simpl in H.
  - now injection H as ->.
  - destruct q as [|b q]; [discriminate|].
    destruct (String.eqb a b) eqn:Hab; [|discriminate].
    apply String.eqb_eq in Hab. subst b. simpl. f_equal. now apply IH.
Qed.

Lemma is_prefix_app (p r : Path) : is_prefix p (p ++ r) = true.
Proof. unfold is_prefix. now rewrite strip_prefix_app. Qed.

Lemma is_prefix_iff (p q : Path) : is_prefix p q = true <-> exists r, q = p ++ r.
Proof.
  unfold is_prefix. split.
  - destruct (strip_prefix p q) as [r|] eqn:H; [|discriminate].
    intros _. exists r. now apply strip_prefix_inv.
  - intros [r ->]. now rewrite strip_prefix_app.
Qed.

Lemma is_prefix_app_l (s r p : Path) : is_prefix (s ++ r) p = true -> is_prefix s p = true.
Proof.
  rewrite !is_prefix_iff. intros [x ->]. exists (r ++ x). now rewrite app_assoc.
Qed.

Lemma is_prefix_app_r (s d x : Path) : is_prefix s d = true -> is_prefix s (d ++ x) = true.
Proof.
  rewrite !is_prefix_iff. intros [y ->]. exists (y ++ x). now rewrite app_assoc.
Qed.

(** Two initial segments of one path are comparable. *)
Lemma is_prefix_comparable (t s r : Path) :
  is_prefix t (s ++ r) = true -> is_prefix t s = true \/ is_prefix s t = true.
Proof.
  revert s. induction t as [|a t IH]; intros s H.
  - left. reflexivity.
  - destruct s as [|b s]; [right; reflexivity|].
    unfold is_prefix in *. simpl in *.
    rewrite (String.eqb_sym b a).
    destruct (String.eqb a b); [|discriminate].
    now apply IH.
Qed.

Lemma path_eqb_app (p q r : Path) : path_eqb (p ++ q) (p ++ r) = path_eqb q r.
Proof.
  unfold path_eqb.
  destruct (list_eq_dec string_dec (p ++ q) (p ++ r)) as [H|H];
    destruct (list_eq_dec string_dec q r) as [H'|H']; try reflexivity.
  - elim H'. now apply app_inv_head in H.
  - elim H. now subst.
Qed.

Lemma path_eqb_true (p q : Path) : path_eqb p q = true -> p = q.
Proof. unfold path_eqb. now destruct (list_eq_dec string_dec p q). Qed.

Lemma content_set_mode (f : FS) (p : Path) (m : N) (q : Path) :
  content (set_mode f p m q) = content (f q).
Proof.
  unfold set_mode. destruct (path_eqb p q); [|reflexivity].
  destruct (f q) as [[d m'|]|]; reflexivity.
Qed.

Lemma fs_with_fs (w : World) (f : FS) : fs (with_fs w f) = f.
Proof. reflexivity. Qed.

Lemma faults_with_fs (w : World) (f : FS) : faults (with_fs w f) = faults w.
Proof. reflexivity. Qed.

Lemma with_fs_with_fs (w : World) (f g : FS) : with_fs (with_fs w f) g = with_fs w g.
Proof. reflexivity. Qed.

Ltac tidy_fs := cbn beta iota; rewrite ?with_fs_with_fs, ?fs_with_fs, ?faults_with_fs.

(** What [shutil_copytree] does to the filesystem when it goes through. *)
Lemma shutil_copytree_fs (src dst : Path) (w : World) :
  fst (shutil_copytree src dst w) = Ret tt ->
  exists base,
    fs w src = Some Dir /\ make_dirs (fs w) dst = Some base /\
    fs (snd (shutil_copytree src dst w)) = graft (fs w) src dst base.
Proof.
  unfold shutil_copytree, bind, refused.
  destruct (faults w (Copytree src dst)); [now cbn|]. tidy_fs.
  destruct (fs w src) as [[dt md|]|]; try (now cbn).
  destruct (present (fs w dst)); [now cbn|].
  destruct (make_dirs (fs w) dst) as [base|]; [|now cbn].
  intros _. exists base. repeat split.
Qed.

(** What [place_tree] does to the filesystem when it goes through. *)
Lemma place_tree_fs (src d : Path) (w : World) :
  fst (place_tree src d w) = Ret tt ->
  exists f1 base,
    make_dirs (fs w) d = Some f1 /\
    (let f2 := if present (f1 (d // "ClipABit"))
               then remove_tree f1 (d // "ClipABit") else f1 in
     f2 src = Some Dir /\
     make_dirs f2 (d // "ClipABit") = Some base /\
     fs (snd (place_tree src d w)) = graft f2 src (d // "ClipABit") base).
Proof.
  unfold place_tree, bind, path_exists, gets, ret.
  unfold mkdir_parents. unfold bind, refused.
  destruct (faults w (Mkdir d)) eqn:Hf1; [now cbn|]. tidy_fs.
  destruct (make_dirs (fs w) d) as [f1|] eqn:Hm1; [|now cbn]. tidy_fs.
  destruct (present (f1 (d // "ClipABit"))) eqn:Hold.
  - unfold shutil_rmtree. unfold bind, refused. tidy_fs.
    destruct (faults w (Rmtree (d // "ClipABit"))); [now cbn|]. tidy_fs.
    destruct (f1 (d // "ClipABit")) as [[dt md|]|] eqn:Hft; try (now cbn). tidy_fs.
    pose proof (shutil_copytree_fs src (d // "ClipABit")
                  (with_fs w (remove_tree f1 (d // "ClipABit")))) as Hc.
    destruct (shutil_copytree src (d // "ClipABit")
                (with_fs w (remove_tree f1 (d // "ClipABit")))) as [[[]|e] w3];
      [|now cbn].
    intros _. destruct (Hc eq_refl) as (base & H1 & H2 & H3).
    exists f1, base. split; [reflexivity|]. rewrite Hft. cbn [present].
    repeat split; assumption.
  - pose proof (shutil_copytree_fs src (d // "ClipABit") (with_fs w f1)) as Hc.
    destruct (shutil_copytree src (d // "ClipABit") (with_fs w f1)) as [[[]|e] w3];
      [|now cbn].
    intros _. destruct (Hc eq_refl) as (base & H1 & H2 & H3).
    exists f1, base. split; [reflexivity|]. rewrite Hold.
    repeat split; assumption.
Qed.

Lemma make_dirs_elsewhere (f f' : FS) (p q : Path) :
  make_dirs f p = Some f' -> is_prefix q p = false -> f' q = f q.
Proof.
  unfold make_dirs. destruct (existsb _ _); [discriminate|].
  intros H Hq. injection H as <-. now rewrite Hq.
Qed.

Lemma make_dirs_present (f f' : FS) (p q : Path) :
  make_dirs f p = Some f' -> present (f q) = true -> f' q = f q.
Proof.
  unfold make_dirs. destruct (existsb _ _); [discriminate|].
  intros H Hq. injection H as <-. rewrite Hq.
  now destruct (is_prefix q p).
Qed.

Lemma os_chmod_fs (p : Path) (m : N) (w : World) :
  fst (os_chmod p m w) = Ret tt ->
  fs (snd (os_chmod p m w)) = set_mode (fs w) p m.
Proof.
  unfold os_chmod, bind, refused.
  destruct (faults w (Chmod p)); [now cbn|]. cbn beta iota.
  destruct (fs w p); [reflexivity|now cbn].
Qed.

(** C3: when an earlier installation sits at the plug-in subdirectory and
    [copy_plugin_files] returns true, the tree found there afterwards is
    the source tree, entry for entry, the entry point carrying mode 755:
    same names, same kinds, same file contents, and nothing of the earlier
    installation.  The source tree itself is as it was.  (The target is
    taken not to lie inside the source tree.) *)
Theorem deploy_replaces_previous (w : World) (d : Path) :
  fst (get_resolve_plugin_directory w) = Ret d ->
  present (fs w (d // "ClipABit")) = true ->
  is_prefix (plugin_source w) (d // "ClipABit") = false ->
  fst (copy_plugin_files w) = Ret true ->
  forall r : Path,
    subtree (fs (snd (copy_plugin_files w))) (d // "ClipABit") r
      = set_mode (subtree (fs w) (plugin_source w)) ["clipabit.py"] 493 r /\
    content (subtree (fs (snd (copy_plugin_files w))) (d // "ClipABit") r)
      = content (subtree (fs w) (plugin_source w) r) /\
    subtree (fs (snd (copy_plugin_files w))) (plugin_source w) r
      = subtree (fs w) (plugin_source w) r.
Proof.
  intros Hd Hold Hns Hok.
  assert (Hsrc : present (fs w (plugin_source w)) = true).
  { destruct (present (fs w (plugin_source w))) eqn:E; [reflexivity|].
    revert Hok. unfold copy_plugin_files, bind, path_exists, gets. cbn beta iota.
    rewrite E. discriminate. }
  pose proof (copy_plugin_files_steps w d Hsrc Hd) as Hsteps.
  pose proof (place_tree_fs (plugin_source w) d w) as Hfs.
  destruct (place_tree (plugin_source w) d w) as [[[]|e] copied].
  2:{ rewrite Hsteps in Hok. discriminate. }
  destruct (Hfs eq_refl) as (f1 & base & Hm1 & Hdir & Hm2 & Hcopied). clear Hfs.
  cbn [snd] in Hcopied.
  set (s := plugin_source w) in *. set (t := d // "ClipABit") in *.
  assert (Hf1t : present (f1 t) = true).
  { now rewrite (make_dirs_present _ _ _ t Hm1 Hold). }
  rewrite Hf1t in Hdir, Hm2, Hcopied.
  assert (Hts : is_prefix t s = false).
  { revert Hdir. unfold remove_tree. now destruct (is_prefix t s). }
  assert (Hbelow : forall r, is_prefix t (s ++ r) = false).
  { intro r. destruct (is_prefix t (s ++ r)) eqn:E; [|reflexivity].
    destruct (is_prefix_comparable _ _ _ E); congruence. }
  assert (Habove_t : forall r, is_prefix (s ++ r) t = false).
  { intro r. destruct (is_prefix (s ++ r) t) eqn:E; [|reflexivity].
    apply is_prefix_app_l in E. congruence. }
  assert (Habove_d : forall r, is_prefix (s ++ r) d = false).
  { intro r. destruct (is_prefix (s ++ r) d) eqn:E; [|reflexivity].
    apply is_prefix_app_l in E.
    apply (is_prefix_app_r _ _ (parts false "ClipABit")) in E.
    fold (joinpath d "ClipABit") in E. fold t in E. congruence. }
  assert (Hkept : forall r, remove_tree f1 t (s ++ r) = fs w (s ++ r)).
  { intro r. unfold remove_tree. rewrite Hbelow.
    apply (make_dirs_elsewhere _ _ _ _ Hm1), Habove_d. }
  assert (Hnew : forall r, fs copied (t ++ r) = fs w (s ++ r)).
  { intro r. rewrite Hcopied. unfold graft. rewrite strip_prefix_app. apply Hkept. }
  assert (Hsame : forall r, fs copied (s ++ r) = fs w (s ++ r)).
  { intro r. rewrite Hcopied. unfold graft.
    pose proof (Hbelow r) as Hb. unfold is_prefix in Hb.
    destruct (strip_prefix t (s ++ r)); [discriminate|].
    rewrite (make_dirs_elsewhere _ _ _ _ Hm2 (Habove_t r)). apply Hkept. }
  assert (Hentry : t // "clipabit.py" = t ++ ["clipabit.py"]) by reflexivity.
  rewrite Hentry in Hsteps.
  assert (Hfinal : forall q,
            fs (snd (copy_plugin_files w)) q
            = set_mode (fs copied) (t ++ ["clipabit.py"]) 493 q).
  { intro q. rewrite Hsteps.
    destruct (present (fs copied (t ++ ["clipabit.py"]))) eqn:Hthere.
    - pose proof (os_chmod_fs (t ++ ["clipabit.py"]) 493 copied) as Hch.
      destruct (os_chmod (t ++ ["clipabit.py"]) 493 copied) as [[[]|e] w4].
      + cbn [snd fst] in *. now rewrite (Hch eq_refl).
      + rewrite Hsteps in Hok. discriminate.
    - cbn [snd]. unfold set_mode.
      destruct (path_eqb (t ++ ["clipabit.py"]) q) eqn:E; [|reflexivity].
      apply path_eqb_true in E. subst q.
      now destruct (fs copied (t ++ ["clipabit.py"])). }
  intro r.
  assert (H1 : subtree (fs (snd (copy_plugin_files w))) t r
               = set_mode (subtree (fs w) s) ["clipabit.py"] 493 r).
  { unfold subtree. rewrite Hfinal. unfold set_mode.
    rewrite path_eqb_app, Hnew. reflexivity. }
  split; [exact H1|]. split.
  - rewrite H1. apply content_set_mode.
  - unfold subtree. rewrite Hfinal. unfold set_mode.
    destruct (path_eqb (t ++ ["clipabit.py"]) (s ++ r)) eqn:E.
    + apply path_eqb_true in E. pose proof (Hbelow r) as Hb.
      rewrite <- E, is_prefix_app in Hb. discriminate.
    + apply Hsame.
Qed.

Lemma deploy_replaces_previous_witness :
  fs mac_world (mac_target // "old.py") = Some (File [x6f] 420) /\
  fs (snd (copy_plugin_files mac_world)) (mac_target // "old.py") = None /\
  fs (snd (copy_plugin_files mac_world)) (mac_target // "clipabit.py")
    = Some (File [x63] 493) /\
  content (fs (snd (copy_plugin_files mac_world)) (mac_target // "pyproject.toml"))
    = content (fs mac_world (plugin_source mac_world // "pyproject.toml")).
Proof.
  pose proof (deploy_replaces_previous mac_world (home mac_world // macos_user_suffix))
    as H.
  assert (H1 : fst (get_resolve_plugin_directory mac_world)
               = Ret (home mac_world // macos_user_suffix))
    by (vm_compute; reflexivity).
  assert (H2 : present (fs mac_world (home mac_world // macos_user_suffix // "ClipABit"))
               = true) by (vm_compute; reflexivity).
  assert (H3 : is_prefix (plugin_source mac_world)
                         (home mac_world // macos_user_suffix // "ClipABit") = false)
    by (vm_compute; reflexivity).
  assert (H4 : fst (copy_plugin_files mac_world) = Ret true)
    by (vm_compute; reflexivity).
  specialize (H H1 H2 H3 H4).
  split; [vm_compute; reflexivity|]. split; [|split].
  - destruct (H ["old.py"]) as [E _]. unfold subtree in E.
    change (mac_target // "old.py")
      with ((home mac_world // macos_user_suffix // "ClipABit") ++ ["old.py"]).
    rewrite E. vm_compute. reflexivity.
  - destruct (H ["clipabit.py"]) as [E _]. unfold subtree in E.
    change (mac_target // "clipabit.py")
      with ((home mac_world // macos_user_suffix // "ClipABit") ++ ["clipabit.py"]).
    rewrite E. vm_compute. reflexivity.
  - destruct (H ["pyproject.toml"]) as (_ & E & _). exact E.
Defined.

(* ------------------------------------------------------------------ *)
(** ** Host application, runtime and package manager *)

Lemma first_existing_existsb (paths : list string) (w : World) :
  first_existing paths w
    = (Ret (existsb (fun p => present (fs w (parts (is_windows w) p))) paths), w).
Proof.
  induction paths as [|p rest IH]; [reflexivity|].
  cbn [first_existing existsb]. unfold bind, os_path_exists, gets.
  destruct (present (fs w (parts (is_windows w) p))); [reflexivity|].
  cbn [orb]. exact IH.
Qed.

(** X1: the host-application probe only reads.  On macOS it answers whether
    the standard or the Studio application bundle exists, on Windows
    whether one of the two executables does, and on any other system it
    answers false whatever the filesystem holds. *)
Theorem host_application_probe (w : World) :
  check_davinci_resolve w
    = (Ret (if String.eqb (system w) "Darwin" then
              present (fs w ["Applications"; "DaVinci Resolve"; "DaVinci Resolve.app"])
              || present (fs w ["Applications"; "DaVinci Resolve Studio";
                                "DaVinci Resolve Studio.app"])
            else if String.eqb (system w) "Windows" then
              present (fs w ["C:"; "Program Files"; "Blackmagic Design";
                             "DaVinci Resolve"; "Resolve.exe"])
              || present (fs w ["C:"; "Program Files"; "Blackmagic Design";
                                "DaVinci Resolve Studio"; "Resolve.exe"])
            else false), w).
Proof.
  unfold check_davinci_resolve. unfold gets, bind.
  destruct (String.eqb (system w) "Darwin") eqn:Hd.
  - rewrite first_existing_existsb. unfold is_windows.
    apply String.eqb_eq in Hd. rewrite Hd. cbn. now rewrite orb_false_r.
  - destruct (String.eqb (system w) "Windows") eqn:Hw; [|reflexivity].
    rewrite first_existing_existsb. unfold is_windows. rewrite Hw.
    cbn. now rewrite orb_false_r.
Qed.

Lemma subprocess_run_unchecked (argv : list string) (capture : bool) (w : World) :
  installs argv = None ->
  subprocess_run argv false capture w
    = match procs w argv with
      | NoSuchProgram => (Raise FileNotFoundError, with_spawned w argv)
      | Exits cp => (Ret cp, with_spawned w argv)
      end.
Proof. intro H. unfold subprocess_run. rewrite H. now destruct (procs w argv). Qed.

Lemma subprocess_run_checked (argv : list string) (capture : bool) (w : World) :
  installs argv = None ->
  subprocess_run argv true capture w
    = match procs w argv with
      | NoSuchProgram => (Raise FileNotFoundError, with_spawned w argv)
      | Exits cp =>
          if (returncode cp =? 0)%Z then (Ret cp, with_spawned w argv)
          else (Raise (CalledProcessError (returncode cp)
                         (if capture then Some (stderr cp) else None)),
                with_spawned w argv)
      end.
Proof.
  intro H. unfold subprocess_run. rewrite H.
  destruct (procs w argv) as [|cp]; [reflexivity|].
  now destruct (returncode cp =? 0)%Z.
Qed.

Lemma commands_run_one {A} (m : M A) (w : World) (a : list string) :
  spawned (snd (m w)) = spawned w ++ [a] -> commands_run m w = [a].
Proof. intro H. unfold commands_run. rewrite H. apply skipn_length_app. Qed.

Lemma commands_run_app {A} (m : M A) (w : World) (l : list (list string)) :
  spawned (snd (m w)) = spawned w ++ l -> commands_run m w = l.
Proof. intro H. unfold commands_run. rewrite H. apply skipn_length_app. Qed.

Lemma runtime_check_run (w : World) :
  exists w',
    check_python_installation w
      = (Ret (exits_zero w python_version_argv
              && exits_zero w which_python_argv
              && exits_zero w version_floor_argv), w') /\
    spawned w'
      = spawned w
          ++ (if negb (exits_zero w python_version_argv) then [python_version_argv]
              else if negb (exits_zero w which_python_argv)
                   then [python_version_argv; which_python_argv]
                   else [python_version_argv; which_python_argv; version_floor_argv]).
Proof.
  unfold check_python_installation, try_except, bind, ret, exits_zero.
  rewrite (subprocess_run_checked ["python3"; "--version"] true w eq_refl).
  change ["python3"; "--version"] with python_version_argv.
  destruct (procs w python_version_argv) as [|cp1];
    [eexists; split; reflexivity|].
  destruct (returncode cp1 =? 0)%Z; [|eexists; split; reflexivity].
  cbn beta iota.
  rewrite (subprocess_run_checked ["which"; "python3"] true _ eq_refl).
  change ["which"; "python3"] with which_python_argv.
  change (procs (with_spawned w python_version_argv) which_python_argv)
    with (procs w which_python_argv).
  cbn [negb andb].
  destruct (procs w which_python_argv) as [|cp2].
  { eexists; split; [reflexivity|]. cbn. now rewrite <- app_assoc. }
  destruct (returncode cp2 =? 0)%Z.
  2:{ eexists; split; [reflexivity|]. cbn. now rewrite <- app_assoc. }
  cbn beta iota.
  rewrite (subprocess_run_unchecked _ true _ (eq_refl : installs version_floor_argv = None)).
  change (procs (with_spawned (with_spawned w python_version_argv) which_python_argv)
                version_floor_argv)
    with (procs w version_floor_argv).
  cbn [negb andb].
  destruct (procs w version_floor_argv) as [|cp3].
  { eexists; split; [reflexivity|]. cbn. now rewrite <- !app_assoc. }
  cbn beta iota.
  destruct (returncode cp3 =? 0)%Z;
    (eexists; split; [reflexivity|]; cbn; now rewrite <- !app_assoc).
Qed.


(** X3: the runtime check stops at the first probe that fails: the path
    probe is spawned only after the version probe ended with status 0, and
    the version-floor probe only after both did. *)
Theorem runtime_check_commands (w : World) :
  commands_run check_python_installation w
    = if negb (exits_zero w python_version_argv) then [python_version_argv]
      else if negb (exits_zero w which_python_argv)
           then [python_version_argv; which_python_argv]
           else [python_version_argv; which_python_argv; version_floor_argv].
Proof.
  destruct (runtime_check_run w) as (w' & H & Hs).
  apply commands_run_app. now rewrite H.
Qed.

Lemma pip_check_run (w : World) :
  check_pip_installation w
    = match procs w pip_version_argv with
      | NoSuchProgram => (Raise FileNotFoundError, with_spawned w pip_version_argv)
      | Exits cp =>
          if (returncode cp =? 0)%Z then (Ret true, with_spawned w pip_version_argv)
          else match procs w ensurepip_argv with
               | NoSuchProgram =>
                   (Raise FileNotFoundError,
                    with_spawned (with_spawned w pip_version_argv) ensurepip_argv)
               | Exits cp2 =>
                   (Ret (returncode cp2 =? 0)%Z,
                    with_spawned (with_spawned w pip_version_argv) ensurepip_argv)
               end
      end.
Proof.
  unfold check_pip_installation, try_except, bind, ret.
  rewrite (subprocess_run_checked ["python3"; "-m"; "pip"; "--version"] true w eq_refl).
  change ["python3"; "-m"; "pip"; "--version"] with pip_version_argv.
  destruct (procs w pip_version_argv) as [|cp]; [reflexivity|].
  destruct (returncode cp =? 0)%Z; [reflexivity|].
  cbn beta iota. cbn [is_CalledProcessError].
  rewrite (subprocess_run_checked ["python3"; "-m"; "ensurepip"; "--default-pip"]
             false _ eq_refl).
  change ["python3"; "-m"; "ensurepip"; "--default-pip"] with ensurepip_argv.
  change (procs (with_spawned w pip_version_argv) ensurepip_argv)
    with (procs w ensurepip_argv).
  destruct (procs w ensurepip_argv) as [|cp2]; [reflexivity|].
  now destruct (returncode cp2 =? 0)%Z.
Qed.

(** X4: when pip answers its version check with status 0, the
    package-manager check returns true on that single command; the
    bootstrap is not run. *)
Theorem pip_present_no_bootstrap (w : World) :
  exits_zero w pip_version_argv = true ->
  fst (check_pip_installation w) = Ret true /\
  commands_run check_pip_installation w = [pip_version_argv].
Proof.
  unfold exits_zero. intro H. pose proof (pip_check_run w) as E.
  destruct (procs w pip_version_argv) as [|cp]; [discriminate|].
  rewrite H in E. split; [now rewrite E|].
  apply commands_run_one. now rewrite E.
Qed.

Lemma pip_present_no_bootstrap_witness :
  fst (check_pip_installation mac_world) = Ret true /\
  commands_run check_pip_installation mac_world = [pip_version_argv].
Proof. apply (pip_present_no_bootstrap mac_world). reflexivity. Defined.

(** X5: when pip's version check starts but ends with a non-zero status,
    the bootstrap is run once, right after it, and its status alone
    decides the result: pip is not probed again. *)
Theorem pip_bootstrap_once (w : World) :
  spawnable w pip_version_argv = true ->
  exits_zero w pip_version_argv = false ->
  spawnable w ensurepip_argv = true ->
  fst (check_pip_installation w) = Ret (exits_zero w ensurepip_argv) /\
  commands_run check_pip_installation w = [pip_version_argv; ensurepip_argv].
Proof.
  unfold exits_zero, spawnable. intros Hs Hz He. pose proof (pip_check_run w) as E.
  destruct (procs w pip_version_argv) as [|cp]; [discriminate|].
  rewrite Hz in E.
  destruct (procs w ensurepip_argv) as [|cp2]; [discriminate|].
  split; [now rewrite E|].
  apply commands_run_app. rewrite E. cbn. now rewrite <- app_assoc.
Qed.

Lemma pip_bootstrap_once_witness :
  fst (check_pip_installation no_pip_world) = Ret true /\
  commands_run check_pip_installation no_pip_world = [pip_version_argv; ensurepip_argv].
Proof. apply (pip_bootstrap_once no_pip_world); reflexivity. Defined.

(** X6: unlike the runtime check, the package-manager check does not
    handle a program that cannot be started: when [python3] cannot be
    spawned for the version check, or for the bootstrap after a failed
    version check, [FileNotFoundError] leaves the function. *)
Theorem pip_check_unspawnable_raises (w : World) :
  spawnable w pip_version_argv = false \/
  (spawnable w pip_version_argv = true /\
   exits_zero w pip_version_argv = false /\
   spawnable w ensurepip_argv = false) ->
  fst (check_pip_installation w) = Raise FileNotFoundError.
Proof.
  unfold exits_zero, spawnable. rewrite pip_check_run.
  intros [H | (H1 & H2 & H3)].
  - now destruct (procs w pip_version_argv).
  - destruct (procs w pip_version_argv) as [|cp]; [discriminate|].
    rewrite H2. now destruct (procs w ensurepip_argv).
Qed.

Lemma pip_check_unspawnable_raises_witness :
  fst (check_pip_installation no_programs_world) = Raise FileNotFoundError.
Proof.
  apply (pip_check_unspawnable_raises no_programs_world). left. reflexivity.
Defined.

(* ------------------------------------------------------------------ *)
(** ** More on dependency resolution *)

Lemma resolver_parsed (w : World) (load : bytes -> option value) (raw : bytes)
      (fields : list (string * value)) :
  tomllib w = Some load ->
  fst (open_rb (pyproject_path w) w) = Ret raw ->
  load raw = Some (TTable fields) ->
  get_dependencies_from_pyproject w
    = match (project <- dict_get (TTable fields) "project" (TTable []) ;;
             dependencies <- dict_get project "dependencies" (TArray []) ;;
             if truthy dependencies then
               of_option (py_len dependencies) TypeError ;;;
               ret dependencies
             else ret (TArray [])) w with
      | (Raise e, w') =>
          if is_Exception e then (Ret fallback_dependencies, w') else (Raise e, w')
      | r => r
      end.
Proof.
  intros Hl Ho Hp.
  pose proof (fst_snd_pair _ _ _ Ho (open_rb_world _ w)) as Ho'.
  destruct (open_rb_returns _ _ _ _ Ho') as [Hpr _].
  unfold get_dependencies_from_pyproject.
  unfold gets, path_exists. unfold bind at 1. unfold bind at 1. unfold gets.
  rewrite Hpr. cbn [negb]. unfold bind at 1. rewrite Hl.
  unfold try_except. unfold bind at 1. rewrite Ho'.
  unfold of_option at 1. unfold bind at 1. rewrite Hp. reflexivity.
Qed.

(** X7: a manifest that parses and declares a non-empty list under
    [project.dependencies] is returned as declared, same entries in the
    same order; the hardcoded requirements play no part. *)
Theorem resolver_returns_declared (w : World) (load : bytes -> option value)
        (raw : bytes) (data first : value) (others : list value) :
  tomllib w = Some load ->
  fst (open_rb (pyproject_path w) w) = Ret raw ->
  load raw = Some data ->
  declared_dependencies data = Some (TArray (first :: others)) ->
  get_dependencies_from_pyproject w = (Ret (TArray (first :: others)), w).
Proof.
  intros Hl Ho Hp Hd.
  destruct data as [| | | | | |fields]; try discriminate.
  rewrite (resolver_parsed w load raw fields Hl Ho Hp).
  unfold declared_dependencies in Hd.
  unfold dict_get at 1. unfold bind at 1. unfold ret at 1.
  destruct (assoc "project" fields) as [[| | | | | |project]|]; try discriminate.
  unfold dict_get, bind, ret. rewrite Hd. reflexivity.
Qed.

Lemma resolver_returns_declared_witness :
  get_dependencies_from_pyproject mac_world
    = (Ret (TArray [TString "alpha"; TString "beta"]), mac_world).
Proof.
  apply (resolver_returns_declared mac_world (fun _ => Some two_dependencies)
           [x70] two_dependencies); reflexivity.
Defined.

(** X8: a manifest that parses but has no [project] table, or a [project]
    table without a [dependencies] key, resolves to the empty list, not to
    the hardcoded requirements; the installer then installs nothing and
    returns true. *)
Theorem resolver_missing_key_gives_empty (w : World) (load : bytes -> option value)
        (raw : bytes) (fields : list (string * value)) :
  tomllib w = Some load ->
  fst (open_rb (pyproject_path w) w) = Ret raw ->
  load raw = Some (TTable fields) ->
  assoc "project" fields = None \/
  (exists project, assoc "project" fields = Some (TTable project) /\
                   assoc "dependencies" project = None) ->
  get_dependencies_from_pyproject w = (Ret (TArray []), w) /\
  install_dependencies w = (Ret true, w).
Proof.
  intros Hl Ho Hp Hk.
  assert (H : get_dependencies_from_pyproject w = (Ret (TArray []), w)).
  { rewrite (resolver_parsed w load raw fields Hl Ho Hp).
    unfold dict_get, bind, ret.
    destruct Hk as [Hn | (project & Hs & Hn)].
    - rewrite Hn. reflexivity.
    - rewrite Hs, Hn. reflexivity. }
  split; [exact H|].
  unfold install_dependencies. unfold bind at 1. rewrite H. reflexivity.
Qed.

Lemma resolver_missing_key_gives_empty_witness :
  fst (install_dependencies no_project_world) = Ret true /\
  fst (get_dependencies_from_pyproject no_project_world) = Ret (TArray []).
Proof.
  destruct (resolver_missing_key_gives_empty no_project_world
              (fun _ => Some (TTable [("tool", TTable [])])) [x70]
              [("tool", TTable [])] eq_refl eq_refl eq_refl (or_introl eq_refl))
    as [H1 H2].
  rewrite H1, H2. split; reflexivity.
Defined.

(** Every run of the resolver in the model: the value and its shape. *)
Lemma resolver_run_shape (w : World) :
  exists v,
    get_dependencies_from_pyproject w = (Ret v, w) /\
    (v = TArray [] \/
     (truthy v = true /\ py_len v <> None /\ py_iter v <> None)).
Proof.
  assert (Hfb : truthy fallback_dependencies = true /\
                py_len fallback_dependencies <> None /\
                py_iter fallback_dependencies <> None)
    by (repeat split; discriminate).
  unfold get_dependencies_from_pyproject.
  unfold gets, path_exists. unfold bind at 1. unfold bind at 1. unfold gets.
  destruct (present (fs w (pyproject_path w))); cbn [negb];
    [|eexists; split; [reflexivity|right; exact Hfb]].
  unfold bind at 1.
  destruct (tomllib w) as [load|]; [|eexists; split; [reflexivity|right; exact Hfb]].
  unfold try_except. unfold bind at 1.
  pose proof (open_rb_world (pyproject_path w) w) as Hw.
  destruct (open_rb (pyproject_path w) w) as [[raw|e] w1] eqn:Ho; simpl in Hw; subst w1.
  2:{ rewrite (open_rb_raises _ _ _ _ Ho).
      eexists; split; [reflexivity|right; exact Hfb]. }
  unfold of_option, dict_get, bind, ret, raise.
  destruct (load raw) as [data|]; cbn beta iota;
    [|eexists; split; [reflexivity|right; exact Hfb]].
  destruct data as [| | | | | |fields]; cbn beta iota;
    try (eexists; split; [reflexivity|right; exact Hfb]).
  destruct (assoc "project" fields) as [project|]; cbn beta iota.
  - destruct project as [| | | | | |pf]; cbn beta iota;
      try (eexists; split; [reflexivity|right; exact Hfb]).
    destruct (assoc "dependencies" pf) as [deps|]; cbn beta iota.
    + destruct deps as [s|z|nz|b| |items|tbl];
        match goal with
        | |- context [truthy ?d] => destruct (truthy d) eqn:Ht
        end;
        cbn [py_len]; cbn beta iota;
        (eexists; split; [reflexivity|]);
        first [ now left
              | right; exact Hfb
              | right; repeat split; [exact Ht|discriminate..] ].
    + eexists; split; [reflexivity|now left].
  - eexists; split; [reflexivity|now left].
Qed.

(** X9: whenever the resolver returns, it has changed nothing, and what it
    returns is either the empty list or a value that is true, has a length
    and can be iterated: the loop of the installer is never handed a value
    it cannot walk. *)
Theorem resolved_value_shape (w w' : World) (v : value) :
  get_dependencies_from_pyproject w = (Ret v, w') ->
  w' = w /\
  (v = TArray [] \/
   (truthy v = true /\ py_len v <> None /\ py_iter v <> None)).
Proof.
  intro H. destruct (resolver_run_shape w) as (v0 & Hv & Hs).
  rewrite Hv in H. injection H as <- <-. split; [reflexivity|exact Hs].
Qed.

Lemma resolved_value_shape_witness :
  truthy two_dependencies = true /\
  py_iter (TArray [TString "alpha"; TString "beta"])
    = Some [TString "alpha"; TString "beta"] /\
  (TArray [TString "alpha"; TString "beta"] = TArray [] \/
   (truthy (TArray [TString "alpha"; TString "beta"]) = true /\
    py_len (TArray [TString "alpha"; TString "beta"]) <> None /\
    py_iter (TArray [TString "alpha"; TString "beta"]) <> None)).
Proof.
  split; [reflexivity|]. split; [reflexivity|].
  exact (proj2 (resolved_value_shape mac_world mac_world
                  (TArray [TString "alpha"; TString "beta"]) eq_refl)).
Defined.

(* ------------------------------------------------------------------ *)
(** ** More on dependency installation *)

Lemma exits_zero_pip (w : World) (d : string) :
  exits_zero w (pip_install_argv d) = true ->
  exists cp, procs w (pip_install_argv d) = Exits cp /\ returncode cp = 0%Z.
Proof.
  unfold exits_zero. destruct (procs w (pip_install_argv d)) as [|cp]; [discriminate|].
  intro H. exists cp. split; [reflexivity|]. now apply Z.eqb_eq.
Qed.

(** Installing a run of requirements that all succeed: the loop goes on
    with what follows them, in a world that has their installs spawned and
    their packages added, in order. *)
Lemma install_each_prefix (pre : list string) (tail : list value) :
  forall w,
    (forall d, In d pre -> exits_zero w (pip_install_argv d) = true) ->
    exists w1,
      install_each (map TString pre ++ tail) w = install_each tail w1 /\
      spawned w1 = spawned w ++ map pip_install_argv pre /\
      site_packages w1 = site_packages w ++ pre /\
      procs w1 = procs w.
Proof.
  induction pre as [|d pre IH]; intros w Hok.
  - exists w. cbn. now rewrite !app_nil_r.
  - destruct (exits_zero_pip w d (Hok d (or_introl eq_refl))) as (cp & Hp & Hr).
    set (w0 := with_package (with_spawned w (pip_install_argv d)) d).
    destruct (IH w0) as (w1 & Hrun & Hsp & Hpk & Hpr).
    { intros d' Hin. exact (Hok d' (or_intror Hin)). }
    exists w1. split; [|split; [|split]].
    + cbn [map app install_each]. unfold bind at 1. unfold try_except at 1.
      unfold bind at 1. rewrite (pip_install_succeeds d w cp Hp Hr).
      cbn [ret]. exact Hrun.
    + rewrite Hsp. cbn. now rewrite <- app_assoc.
    + rewrite Hpk. cbn. now rewrite <- app_assoc.
    + exact Hpr.
Qed.

Lemma install_dependencies_list (w : World) (items : list value) :
  fst (get_dependencies_from_pyproject w) = Ret (TArray items) ->
  install_dependencies w = install_each items w.
Proof.
  intro Hg.
  destruct (get_dependencies_total w) as [v Hv]. rewrite Hv in Hg. simpl in Hg.
  injection Hg as ->.
  unfold install_dependencies. unfold bind at 1. rewrite Hv.
  destruct items as [|x l]; reflexivity.
Qed.

(** X10: when every resolved requirement installs with status 0, the
    installer returns true, having spawned one upgrade-install per
    requirement, in the order of the list, and each requirement is
    installed. *)
Theorem install_all_succeed (w : World) (deps : list string) :
  fst (get_dependencies_from_pyproject w) = Ret (TArray (map TString deps)) ->
  (forall d, In d deps -> exits_zero w (pip_install_argv d) = true) ->
  fst (install_dependencies w) = Ret true /\
  commands_run install_dependencies w = map pip_install_argv deps /\
  site_packages (snd (install_dependencies w)) = site_packages w ++ deps.
Proof.
  intros Hg Hok.
  rewrite (install_dependencies_list w _ Hg).
  destruct (install_each_prefix deps [] w Hok) as (w1 & Hrun & Hsp & Hpk & _).
  rewrite app_nil_r in Hrun.
  assert (E : install_each (map TString deps) w = (Ret true, w1))
    by (rewrite Hrun; reflexivity).
  split; [now rewrite E|]. split.
  - apply commands_run_app.
    rewrite (install_dependencies_list w _ Hg), E. exact Hsp.
  - rewrite E. exact Hpk.
Qed.

Lemma install_all_succeed_witness :
  fst (install_dependencies mac_world) = Ret true /\
  commands_run install_dependencies mac_world
    = [pip_install_argv "alpha"; pip_install_argv "beta"] /\
  site_packages (snd (install_dependencies mac_world)) = ["alpha"; "beta"].
Proof.
  apply (install_all_succeed mac_world ["alpha"; "beta"]); [reflexivity|].
  intros d _. reflexivity.
Defined.

(** X11: wherever in the list the first failing requirement stands, the
    installer stops there: with the requirements before it installing with
    status 0 and its own install ending with a non-zero status and an
    error stream that decodes, the result is false, the installs spawned
    are those up to and including the failing one, and the requirements
    before it stay installed. *)
Theorem install_first_failure (w : World) (pre : list string) (B : string)
        (rest : list value) (cpB : CompletedProcess) :
  fst (get_dependencies_from_pyproject w)
    = Ret (TArray (map TString pre ++ TString B :: rest)) ->
  (forall d, In d pre -> exits_zero w (pip_install_argv d) = true) ->
  procs w (pip_install_argv B) = Exits cpB ->
  returncode cpB <> 0%Z ->
  utf8_decode (stderr cpB) <> None ->
  fst (install_dependencies w) = Ret false /\
  commands_run install_dependencies w
    = map pip_install_argv pre ++ [pip_install_argv B] /\
  site_packages (snd (install_dependencies w)) = site_packages w ++ pre.
Proof.
  intros Hg Hok HB Hr Hd.
  pose proof (install_dependencies_list w _ Hg) as Hi.
  destruct (install_each_prefix pre (TString B :: rest) w Hok)
    as (w1 & Hrun & Hsp & Hpk & Hpr).
  assert (E : install_each (TString B :: rest) w1
              = (Ret false, with_spawned w1 (pip_install_argv B))).
  { cbn [install_each]. unfold bind at 1. unfold try_except at 1. unfold bind at 1.
    assert (HB1 : procs w1 (pip_install_argv B) = Exits cpB) by now rewrite Hpr.
    rewrite (pip_install_fails B w1 cpB HB1 Hr). cbn [is_CalledProcessError].
    unfold error_text.
    destruct (stderr cpB) as [|b bs]; [reflexivity|].
    unfold of_option, bind, ret, raise.
    destruct (utf8_decode (b :: bs)); [reflexivity|now elim Hd]. }
  rewrite Hi, Hrun, E. split; [reflexivity|]. split.
  - apply commands_run_app. rewrite Hi, Hrun, E. cbn. rewrite Hsp.
    now rewrite <- app_assoc.
  - exact Hpk.
Qed.

Lemma install_first_failure_witness :
  fst (install_dependencies beta_fails_world) = Ret false /\
  commands_run install_dependencies beta_fails_world
    = [pip_install_argv "alpha"; pip_install_argv "beta"] /\
  site_packages (snd (install_dependencies beta_fails_world)) = ["alpha"].
Proof.
  apply (install_first_failure beta_fails_world ["alpha"] "beta" []
           (mkCompleted 1 [] [x6e; x6f])).
  - reflexivity.
  - intros d [<-|[]]. reflexivity.
  - reflexivity.
  - discriminate.
  - vm_compute. discriminate.
Defined.

(** X12: the installer does not handle a package manager that cannot be
    started: when the install of a requirement cannot be spawned,
    [FileNotFoundError] leaves [install_dependencies]; the requirements
    before it stay installed and none after it is tried. *)
Theorem install_unspawnable_raises (w : World) (pre : list string) (B : string)
        (rest : list value) :
  fst (get_dependencies_from_pyproject w)
    = Ret (TArray (map TString pre ++ TString B :: rest)) ->
  (forall d, In d pre -> exits_zero w (pip_install_argv d) = true) ->
  spawnable w (pip_install_argv B) = false ->
  fst (install_dependencies w) = Raise FileNotFoundError /\
  commands_run install_dependencies w
    = map pip_install_argv pre ++ [pip_install_argv B] /\
  site_packages (snd (install_dependencies w)) = site_packages w ++ pre.
Proof.
  intros Hg Hok HB.
  pose proof (install_dependencies_list w _ Hg) as Hi.
  destruct (install_each_prefix pre (TString B :: rest) w Hok)
    as (w1 & Hrun & Hsp & Hpk & Hpr).
  assert (E : install_each (TString B :: rest) w1
              = (Raise FileNotFoundError, with_spawned w1 (pip_install_argv B))).
  { cbn [install_each]. unfold bind at 1. unfold try_except at 1. unfold bind at 1.
    unfold subprocess_run. rewrite Hpr.
    unfold spawnable in HB.
    destruct (procs w (pip_install_argv B)); [reflexivity|discriminate]. }
  rewrite Hi, Hrun, E. split; [reflexivity|]. split.
  - apply commands_run_app. rewrite Hi, Hrun, E. cbn. rewrite Hsp.
    now rewrite <- app_assoc.
  - exact Hpk.
Qed.

Lemma install_unspawnable_raises_witness :
  fst (install_dependencies no_programs_world) = Raise FileNotFoundError /\
  commands_run install_dependencies no_programs_world = [pip_install_argv "alpha"].
Proof.
  destruct (install_unspawnable_raises no_programs_world [] "alpha" [TString "beta"])
    as (H1 & H2 & _).
  - reflexivity.
  - intros d [].
  - reflexivity.
  - split; assumption.
Defined.

Lemma utf8_run_ascii (bs : bytes) :
  is_ascii bs = true -> utf8_run U_start bs = Some (map Byte.to_N bs).
Proof.
  induction bs as [|b bs IH]; [reflexivity|].
  cbn [is_ascii forallb]. intro H. apply andb_prop in H as [Hb Hbs].
  cbn [utf8_run map]. unfold utf8_step, in_range.
  apply N.ltb_lt in Hb.
  assert (H1 : (0 <=? Byte.to_N b)%N = true) by (apply N.leb_le; lia).
  assert (H2 : (Byte.to_N b <=? 127)%N = true) by (apply N.leb_le; lia).
  rewrite H1, H2. cbn [andb].
  now rewrite (IH Hbs).
Qed.

(** X13: an error stream made of ASCII bytes always decodes, to the same
    code points, so building the text of a failed install does not raise
    on it. *)
Theorem ascii_error_stream_decodes (bs : bytes) (rc : Z) (w : World) :
  is_ascii bs = true ->
  utf8_decode bs = Some (map Byte.to_N bs) /\
  error_text (CalledProcessError rc (Some bs)) w = (Ret tt, w).
Proof.
  intro H. pose proof (utf8_run_ascii bs H) as Hd. split; [exact Hd|].
  unfold error_text. destruct bs as [|b bs]; [reflexivity|].
  unfold utf8_decode, of_option, bind. rewrite Hd. reflexivity.
Qed.

Lemma ascii_error_stream_decodes_witness :
  utf8_decode [x6e; x6f] = Some [110%N; 111%N].
Proof.
  destruct (ascii_error_stream_decodes [x6e; x6f] 1 mac_world eq_refl) as [H _].
  exact H.
Defined.

(* ------------------------------------------------------------------ *)
(** ** More on the target directory and on deployment *)

(** X14: a [TypeError] from the resolver has one origin: Windows with
    [APPDATA] or [PROGRAMDATA] unset.  On macOS, on any other system, and
    on Windows with both variables set, the resolver does not raise it. *)
Theorem type_error_means_unset_variable (w : World) :
  fst (get_resolve_plugin_directory w) = Raise TypeError ->
  system w = "Windows" /\
  (environ w "APPDATA" = None \/ environ w "PROGRAMDATA" = None).
Proof.
  unfold get_resolve_plugin_directory. unfold gets. unfold bind at 1.
  destruct (String.eqb (system w) "Darwin").
  - unfold bind, gets. now rewrite choose_directory_rule.
  - destruct (String.eqb (system w) "Windows") eqn:Hw; [|discriminate].
    apply String.eqb_eq in Hw.
    unfold os_getenv, Path_of, gets, bind.
    destruct (environ w "APPDATA") as [a|]; [|auto].
    destruct (environ w "PROGRAMDATA") as [p|]; [|auto].
    now rewrite choose_directory_rule.
Qed.

Lemma type_error_means_unset_variable_witness :
  system windows_world = "Windows" /\
  (environ windows_world "APPDATA" = None \/
   environ windows_world "PROGRAMDATA" = None).
Proof. exact (type_error_means_unset_variable windows_world eq_refl). Defined.

(** X15: without the plug-in source directory next to the installer,
    deployment returns false at once: the target directory is not even
    resolved, nothing is created, and the world is left as it was; this
    holds on Windows with the variables unset too, where resolving would
    raise. *)
Theorem deploy_without_source (w : World) :
  present (fs w (plugin_source w)) = false ->
  copy_plugin_files w = (Ret false, w).
Proof.
  intro H. unfold copy_plugin_files, bind, path_exists, gets. cbn beta iota.
  now rewrite H.
Qed.

Lemma deploy_without_source_witness :
  environ windows_no_source_world "APPDATA" = None /\
  fst (copy_plugin_files windows_no_source_world) = Ret false.
Proof.
  split; [reflexivity|].
  now rewrite (deploy_without_source windows_no_source_world eq_refl).
Defined.

Lemma only_dirs_made_refl (t d : Path) (f : FS) : only_dirs_made t d f f.
Proof. intros q _. now left. Qed.

Lemma only_dirs_made_trans (t d : Path) (f g h : FS) :
  only_dirs_made t d f g -> only_dirs_made t d g h -> only_dirs_made t d f h.
Proof.
  intros Hfg Hgh q Hq.
  destruct (Hfg q Hq) as [E1 | (F1 & G1 & P1)];
    destruct (Hgh q Hq) as [E2 | (G2 & H2 & P2)].
  - left. congruence.
  - right. repeat split; congruence.
  - right. repeat split; congruence.
  - congruence.
Qed.

(** A path on the way down to [d ++ [x]] that is not [d ++ [x]] itself is
    on the way down to [d]. *)
Lemma is_prefix_proper (q d : Path) (x : string) :
  is_prefix q (d ++ [x]) = true -> is_prefix (d ++ [x]) q = false ->
  is_prefix q d = true.
Proof.
  intros H Hn. apply is_prefix_iff in H as [r Hr].
  destruct (exists_last (l := r)) as (r' & y & ->).
  - intros ->. rewrite app_nil_r in Hr. subst q.
    pose proof (is_prefix_app (d ++ [x]) []) as Hs. rewrite app_nil_r in Hs.
    congruence.
  - rewrite app_assoc in Hr. apply app_inj_tail in Hr as [-> _].
    apply is_prefix_app.
Qed.

Lemma make_dirs_only_dirs (t d p : Path) (f f' : FS) :
  make_dirs f p = Some f' ->
  (forall q, is_prefix q p = true -> is_prefix t q = false -> is_prefix q d = true) ->
  only_dirs_made t d f f'.
Proof.
  unfold make_dirs. destruct (existsb _ _); [discriminate|].
  intros H Hd q Hq. injection H as <-.
  destruct (is_prefix q p) eqn:Hp; [|now left].
  destruct (f q) as [e|] eqn:Hf; cbn; [left; reflexivity|].
  right. repeat split. exact (Hd q Hp Hq).
Qed.

Lemma mkdir_parents_only_dirs (t d : Path) (w : World) :
  only_dirs_made t d (fs w) (fs (snd (mkdir_parents d w))).
Proof.
  unfold mkdir_parents, bind, refused.
  destruct (faults w (Mkdir d)); [apply only_dirs_made_refl|].
  destruct (make_dirs (fs w) d) as [f|] eqn:Hm; [|apply only_dirs_made_refl].
  cbn [snd]. rewrite fs_with_fs.
  apply (make_dirs_only_dirs t d d _ _ Hm). auto.
Qed.

Lemma shutil_rmtree_only_dirs (t d : Path) (w : World) :
  only_dirs_made t d (fs w) (fs (snd (shutil_rmtree t w))).
Proof.
  unfold shutil_rmtree, bind, refused.
  destruct (faults w (Rmtree t)); [apply only_dirs_made_refl|]. cbn beta iota.
  destruct (fs w t) as [[dt md|]|]; try apply only_dirs_made_refl.
  cbn [snd]. rewrite fs_with_fs. intros q Hq. left. unfold remove_tree. now rewrite Hq.
Qed.

Lemma shutil_copytree_only_dirs (s d : Path) (x : string) (w : World) :
  only_dirs_made (d ++ [x]) d (fs w) (fs (snd (shutil_copytree s (d ++ [x]) w))).
Proof.
  unfold shutil_copytree, bind, refused.
  destruct (faults w (Copytree s (d ++ [x]))); [apply only_dirs_made_refl|].
  cbn beta iota.
  destruct (fs w s) as [[dt md|]|]; try apply only_dirs_made_refl.
  destruct (present (fs w (d ++ [x]))); [apply only_dirs_made_refl|].
  destruct (make_dirs (fs w) (d ++ [x])) as [base|] eqn:Hm;
    [|apply only_dirs_made_refl].
  cbn [snd]. rewrite fs_with_fs. intros q Hq. unfold graft.
  pose proof Hq as Hq'. unfold is_prefix in Hq'.
  destruct (strip_prefix (d ++ [x]) q); [discriminate|].
  apply (make_dirs_only_dirs (d ++ [x]) d (d ++ [x]) _ _ Hm); [|exact Hq].
  intros q0 H1 H2. exact (is_prefix_proper q0 d x H1 H2).
Qed.

Lemma os_chmod_only_dirs (t d p : Path) (m : N) (w : World) :
  is_prefix t p = true ->
  only_dirs_made t d (fs w) (fs (snd (os_chmod p m w))).
Proof.
  intro Htp. unfold os_chmod, bind, refused.
  destruct (faults w (Chmod p)); [apply only_dirs_made_refl|]. cbn beta iota.
  destruct (fs w p); [|apply only_dirs_made_refl].
  cbn [snd]. rewrite fs_with_fs. intros q Hq. left. unfold set_mode.
  destruct (path_eqb p q) eqn:E; [|reflexivity].
  apply path_eqb_true in E. subst q. congruence.
Qed.

Lemma place_tree_only_dirs (s d : Path) (w : World) :
  only_dirs_made (d // "ClipABit") d (fs w) (fs (snd (place_tree s d w))).
Proof.
  unfold place_tree. unfold bind at 1.
  pose proof (mkdir_parents_only_dirs (d // "ClipABit") d w) as H1.
  destruct (mkdir_parents d w) as [[[]|e1] w1]; cbn [snd] in *; [|exact H1].
  unfold path_exists, gets. unfold bind at 1. unfold bind at 1.
  apply (only_dirs_made_trans _ _ _ _ _ H1).
  destruct (present (fs w1 (d // "ClipABit"))).
  - pose proof (shutil_rmtree_only_dirs (d // "ClipABit") d w1) as H2.
    destruct (shutil_rmtree (d // "ClipABit") w1) as [[[]|e2] w2]; cbn [snd] in *;
      [|exact H2].
    apply (only_dirs_made_trans _ _ _ _ _ H2).
    exact (shutil_copytree_only_dirs s d "ClipABit" w2).
  - cbn [ret]. exact (shutil_copytree_only_dirs s d "ClipABit" w1).
Qed.

(** X16: whatever its outcome, deployment changes nothing outside the
    plug-in subdirectory except to create directories that were missing on
    the way down to the plug-in directory: every other path outside
    [<plugin dir>/ClipABit] holds after the call what it held before, so no
    existing file or directory there is altered or removed, and no file is
    ever created there. *)
Theorem deploy_keeps_the_rest (w : World) (d q : Path) :
  fst (get_resolve_plugin_directory w) = Ret d ->
  is_prefix (d // "ClipABit") q = false ->
  fs (snd (copy_plugin_files w)) q = fs w q \/
  (fs w q = None /\
   fs (snd (copy_plugin_files w)) q = Some Dir /\
   is_prefix q d = true).
Proof.
  intros Hd. revert q. change (only_dirs_made (d // "ClipABit") d (fs w)
                                 (fs (snd (copy_plugin_files w)))).
  destruct (present (fs w (plugin_source w))) eqn:Hsrc.
  2:{ rewrite (deploy_without_source w Hsrc). apply only_dirs_made_refl. }
  rewrite (copy_plugin_files_steps w d Hsrc Hd).
  pose proof (place_tree_only_dirs (plugin_source w) d w) as H1.
  destruct (place_tree (plugin_source w) d w) as [[[]|e] copied]; cbn [snd] in *;
    [|exact H1].
  destruct (present (fs copied (d // "ClipABit" // "clipabit.py"))); [|exact H1].
  apply (only_dirs_made_trans _ _ _ _ _ H1).
  pose proof (os_chmod_only_dirs (d // "ClipABit") d (d // "ClipABit" // "clipabit.py")
                493 copied (is_prefix_app _ _)) as H2.
  destruct (os_chmod (d // "ClipABit" // "clipabit.py") 493 copied) as [[[]|e] w4];
    exact H2.
Qed.

Lemma deploy_keeps_the_rest_witness :
  fs (snd (copy_plugin_files mac_world))
     ["Applications"; "DaVinci Resolve"; "DaVinci Resolve.app"] = Some Dir /\
  fs fresh_world ["home"; "ana"; "ClipABit"] = None /\
  fs (snd (copy_plugin_files fresh_world)) ["home"; "ana"; "ClipABit"] = Some Dir.
Proof.
  split; [|split; [reflexivity|]].
  - destruct (deploy_keeps_the_rest mac_world (home mac_world // macos_user_suffix)
                ["Applications"; "DaVinci Resolve"; "DaVinci Resolve.app"]
                eq_refl eq_refl) as [E | (E & _)].
    + rewrite E. reflexivity.
    + discriminate E.
  - destruct (deploy_keeps_the_rest fresh_world ["home"; "ana"; "ClipABit"]
                ["home"; "ana"; "ClipABit"] eq_refl eq_refl) as [E | (_ & E & _)].
    + vm_compute in E. discriminate E.
    + exact E.
Defined.

(** The tree deployment leaves at the plug-in subdirectory when it returns
    true, with or without an earlier installation. *)
Lemma deployed_tree (w : World) (d : Path) :
  fst (get_resolve_plugin_directory w) = Ret d ->
  is_prefix (plugin_source w) (d // "ClipABit") = false ->
  fst (copy_plugin_files w) = Ret true ->
  forall r : Path,
    fs (snd (copy_plugin_files w)) ((d // "ClipABit") ++ r)
      = set_mode (subtree (fs w) (plugin_source w)) ["clipabit.py"] 493 r.
Proof.
  intros Hd Hns Hok.
  assert (Hsrc : present (fs w (plugin_source w)) = true).
  { destruct (present (fs w (plugin_source w))) eqn:E; [reflexivity|].
    rewrite (deploy_without_source w E) in Hok. discriminate. }
  pose proof (copy_plugin_files_steps w d Hsrc Hd) as Hsteps.
  pose proof (place_tree_fs (plugin_source w) d w) as Hfs.
  destruct (place_tree (plugin_source w) d w) as [[[]|e] copied].
  2:{ rewrite Hsteps in Hok. discriminate. }
  destruct (Hfs eq_refl) as (f1 & base & Hm1 & Hdir & Hm2 & Hcopied). clear Hfs.
  cbn [snd] in Hcopied.
  set (s := plugin_source w) in *. set (t := d // "ClipABit") in *.
  assert (Habove_d : forall r, is_prefix (s ++ r) d = false).
  { intro r. destruct (is_prefix (s ++ r) d) eqn:E; [|reflexivity].
    apply is_prefix_app_l in E.
    apply (is_prefix_app_r _ _ (parts false "ClipABit")) in E.
    fold (joinpath d "ClipABit") in E. fold t in E. congruence. }
  assert (Hkept : forall r,
            (if present (f1 t) then remove_tree f1 t else f1) (s ++ r) = fs w (s ++ r)).
  { intro r. destruct (present (f1 t)).
    - assert (Hts : is_prefix t s = false).
      { revert Hdir. unfold remove_tree. now destruct (is_prefix t s). }
      unfold remove_tree.
      destruct (is_prefix t (s ++ r)) eqn:E.
      + destruct (is_prefix_comparable _ _ _ E); congruence.
      + apply (make_dirs_elsewhere _ _ _ _ Hm1), Habove_d.
    - apply (make_dirs_elsewhere _ _ _ _ Hm1), Habove_d. }
  assert (Hnew : forall r, fs copied (t ++ r) = fs w (s ++ r)).
  { intro r. rewrite Hcopied. unfold graft. rewrite strip_prefix_app. apply Hkept. }
  assert (Hentry : t // "clipabit.py" = t ++ ["clipabit.py"]) by reflexivity.
  rewrite Hentry in Hsteps.
  intro r. rewrite Hsteps.
  destruct (present (fs copied (t ++ ["clipabit.py"]))) eqn:Hthere.
  - pose proof (os_chmod_fs (t ++ ["clipabit.py"]) 493 copied) as Hch.
    destruct (os_chmod (t ++ ["clipabit.py"]) 493 copied) as [[[]|e] w4].
    + cbn [snd fst] in *. rewrite (Hch eq_refl). unfold set_mode, subtree.
      now rewrite path_eqb_app, Hnew.
    + rewrite Hsteps in Hok. discriminate.
  - cbn [snd]. unfold set_mode, subtree. rewrite Hnew.
    destruct (path_eqb ["clipabit.py"] r) eqn:E; [|reflexivity].
    apply path_eqb_true in E. subst r.
    rewrite Hnew in Hthere. now destruct (fs w (s ++ ["clipabit.py"])).
Qed.



(** X18: the existence check on the plug-in source does not ask whether
    it is a directory.  When a regular file stands there and an earlier
    installation is in place, deployment first removes that installation
    and only then fails on the copy, which raises before writing anything:
    the result is false and nothing is left at or below the plug-in
    subdirectory. *)
Theorem failed_copy_loses_previous (w : World) (d r : Path) (data : bytes) (mode : N) :
  fs w (plugin_source w) = Some (File data mode) ->
  fst (get_resolve_plugin_directory w) = Ret d ->
  fst (mkdir_parents d w) = Ret tt ->
  fs w (d // "ClipABit") = Some Dir ->
  faults w (Rmtree (d // "ClipABit")) = false ->
  fst (copy_plugin_files w) = Ret false /\
  fs (snd (copy_plugin_files w)) ((d // "ClipABit") ++ r) = None.
Proof.
  intros Hfile Hd Hmk Hold Hrm.
  assert (Hsrc : present (fs w (plugin_source w)) = true) by now rewrite Hfile.
  rewrite (copy_plugin_files_steps w d Hsrc Hd).
  assert (E : exists f1 e,
            place_tree (plugin_source w) d w
            = (Raise e, with_fs w (remove_tree f1 (d // "ClipABit")))).
  { revert Hmk. unfold place_tree, bind, path_exists, gets, ret.
    unfold mkdir_parents, bind, refused.
    destruct (faults w (Mkdir d)); [now cbn|]. tidy_fs.
    destruct (make_dirs (fs w) d) as [f1|] eqn:Hm1; [|now cbn]. tidy_fs.
    intros _. exists f1.
    assert (Hp : present (fs w (d // "ClipABit")) = true) by now rewrite Hold.
    rewrite (make_dirs_present _ _ _ _ Hm1 Hp), Hold. cbn [present].
    unfold shutil_rmtree, bind, refused. tidy_fs. rewrite Hrm. tidy_fs.
    rewrite (make_dirs_present _ _ _ _ Hm1 Hp), Hold. tidy_fs.
    unfold shutil_copytree, bind, refused. tidy_fs.
    destruct (faults w (Copytree (plugin_source w) (d // "ClipABit")));
      [eexists; reflexivity|]. tidy_fs.
    unfold remove_tree at 1.
    destruct (is_prefix (d // "ClipABit") (plugin_source w));
      [eexists; reflexivity|].
    rewrite (make_dirs_present _ _ _ _ Hm1 Hsrc), Hfile.
    eexists; reflexivity. }
  destruct E as (f1 & e & E). rewrite E. split; [reflexivity|].
  cbn [snd]. rewrite fs_with_fs. unfold remove_tree. now rewrite is_prefix_app.
Qed.

Lemma failed_copy_loses_previous_witness :
  fs file_source_world (mac_target // "old.py") = Some (File [x6f] 420) /\
  fst (copy_plugin_files file_source_world) = Ret false /\
  fs (snd (copy_plugin_files file_source_world)) (mac_target // "old.py") = None.
Proof.
  split; [vm_compute; reflexivity|].
  assert (Ha : fs file_source_world (plugin_source file_source_world)
               = Some (File [] 420)) by (vm_compute; reflexivity).
  assert (Hb : fst (get_resolve_plugin_directory file_source_world)
               = Ret (home mac_world // macos_user_suffix))
    by (vm_compute; reflexivity).
  assert (Hc : fst (mkdir_parents (home mac_world // macos_user_suffix)
                                  file_source_world) = Ret tt)
    by (vm_compute; reflexivity).
  assert (Hd : fs file_source_world (home mac_world // macos_user_suffix // "ClipABit")
               = Some Dir) by (vm_compute; reflexivity).
  exact (failed_copy_loses_previous file_source_world
           (home mac_world // macos_user_suffix) ["old.py"] [] 420
           Ha Hb Hc Hd eq_refl).
Defined.

(** X19: a regular file standing where the plug-in directory or one of its
    ancestors should be makes deployment return false, with nothing
    created, removed or copied. *)
Theorem deploy_blocked_by_file (w : World) (d q : Path) :
  present (fs w (plugin_source w)) = true ->
  fst (get_resolve_plugin_directory w) = Ret d ->
  In q (prefixes d) ->
  is_file (fs w q) = true ->
  copy_plugin_files w = (Ret false, w).
Proof.
  intros Hsrc Hd Hin Hfile.
  rewrite (copy_plugin_files_steps w d Hsrc Hd).
  assert (E : exists e, place_tree (plugin_source w) d w = (Raise e, w)).
  { unfold place_tree. unfold bind at 1. unfold mkdir_parents, bind, refused.
    destruct (faults w (Mkdir d)); [eexists; reflexivity|]. cbn beta iota.
    unfold make_dirs.
    assert (Hex : existsb (fun q0 => is_file (fs w q0)) (prefixes d) = true).
    { apply existsb_exists. exists q. split; assumption. }
    rewrite Hex. eexists; reflexivity. }
  destruct E as [e E]. now rewrite E.
Qed.

Lemma deploy_blocked_by_file_witness :
  fst (copy_plugin_files blocked_world) = Ret false.
Proof.
  assert (Ha : present (fs blocked_world (plugin_source blocked_world)) = true)
    by (vm_compute; reflexivity).
  assert (Hb : fst (get_resolve_plugin_directory blocked_world)
               = Ret (home mac_world // macos_user_suffix))
    by (vm_compute; reflexivity).
  assert (Hc : In ["Users"; "ana"; "Library"]
                  (prefixes (home mac_world // macos_user_suffix))).
  { vm_compute. right. right. right. left. reflexivity. }
  assert (Hd : is_file (fs blocked_world ["Users"; "ana"; "Library"]) = true)
    by (vm_compute; reflexivity).
  now rewrite (deploy_blocked_by_file blocked_world _ _ Ha Hb Hc Hd).
Defined.

(* ------------------------------------------------------------------ *)
(** ** More on verification *)

Lemma verify_run (w : World) (d : Path) :
  fst (get_resolve_plugin_directory w) = Ret d ->
  verify_installation w
    = if present (fs w (d // "ClipABit/clipabit.py")) then
        match procs w import_check_argv with
        | NoSuchProgram => (Raise FileNotFoundError, with_spawned w import_check_argv)
        | Exits cp => (Ret (returncode cp =? 0)%Z, with_spawned w import_check_argv)
        end
      else (Ret false, w).
Proof.
  intro Hd. pose proof (fst_snd_pair _ _ _ Hd (resolve_world w)) as Hr.
  unfold verify_installation, try_except, bind, path_exists, gets, ret.
  rewrite Hr. destruct (present (fs w (d // "ClipABit/clipabit.py"))); [|reflexivity].
  cbn [negb].
  rewrite (subprocess_run_checked import_check_argv true w eq_refl).
  destruct (procs w import_check_argv) as [|cp]; [reflexivity|].
  now destruct (returncode cp =? 0)%Z.
Qed.

(** X20: when the entry point is not where the resolved directory says it
    should be, verification returns false at once: the import check is not
    spawned and the world is left as it was. *)
Theorem verify_entry_missing (w : World) (d : Path) :
  fst (get_resolve_plugin_directory w) = Ret d ->
  present (fs w (d // "ClipABit/clipabit.py")) = false ->
  verify_installation w = (Ret false, w).
Proof. intros Hd Hp. now rewrite (verify_run w d Hd), Hp. Qed.

Lemma verify_entry_missing_witness :
  fst (verify_installation linux_world) = Ret false.
Proof.
  now rewrite (verify_entry_missing linux_world ["home"; "ana"; "ClipABit"]
                 eq_refl eq_refl).
Defined.

(** X21: with the entry point in place, the verdict of verification is
    the status of the import check: true for status 0, false for any
    other; if the runtime cannot be started, [FileNotFoundError] leaves
    the function instead. *)
Theorem verify_verdict (w : World) (d : Path) :
  fst (get_resolve_plugin_directory w) = Ret d ->
  present (fs w (d // "ClipABit/clipabit.py")) = true ->
  fst (verify_installation w)
    = if spawnable w import_check_argv
      then Ret (exits_zero w import_check_argv)
      else Raise FileNotFoundError.
Proof.
  intros Hd Hp. rewrite (verify_run w d Hd), Hp. unfold spawnable, exits_zero.
  now destruct (procs w import_check_argv).
Qed.

Lemma verify_verdict_witness :
  fst (verify_installation (snd (copy_plugin_files import_fails_world))) = Ret false /\
  fst (verify_installation (snd (copy_plugin_files no_programs_world)))
    = Raise FileNotFoundError.
Proof.
  split.
  - rewrite (verify_verdict (snd (copy_plugin_files import_fails_world))
               (home mac_world // macos_user_suffix)); reflexivity.
  - rewrite (verify_verdict (snd (copy_plugin_files no_programs_world))
               (home mac_world // macos_user_suffix)); reflexivity.
Defined.

Lemma with_fs_same (w : World) : with_fs w (fs w) = w.
Proof. now destruct w. Qed.

Lemma mkdir_parents_only_fs (d : Path) (w : World) :
  exists f, snd (mkdir_parents d w) = with_fs w f.
Proof.
  unfold mkdir_parents, bind, refused.
  destruct (faults w (Mkdir d)); [exists (fs w); now rewrite with_fs_same|].
  cbn beta iota.
  destruct (make_dirs (fs w) d) as [f|]; [now exists f|].
  exists (fs w). now rewrite with_fs_same.
Qed.

Lemma shutil_rmtree_only_fs (t : Path) (w : World) :
  exists f, snd (shutil_rmtree t w) = with_fs w f.
Proof.
  unfold shutil_rmtree, bind, refused.
  destruct (faults w (Rmtree t)); [exists (fs w); now rewrite with_fs_same|].
  cbn beta iota.
  destruct (fs w t) as [[dt md|]|]; try (exists (fs w); now rewrite with_fs_same).
  eexists; reflexivity.
Qed.

Lemma shutil_copytree_only_fs (s t : Path) (w : World) :
  exists f, snd (shutil_copytree s t w) = with_fs w f.
Proof.
  unfold shutil_copytree, bind, refused.
  destruct (faults w (Copytree s t)); [exists (fs w); now rewrite with_fs_same|].
  cbn beta iota.
  destruct (fs w s) as [[dt md|]|]; try (exists (fs w); now rewrite with_fs_same).
  destruct (present (fs w t)); [exists (fs w); now rewrite with_fs_same|].
  destruct (make_dirs (fs w) t) as [base|]; [eexists; reflexivity|].
  exists (fs w). now rewrite with_fs_same.
Qed.

Lemma os_chmod_only_fs (p : Path) (m : N) (w : World) :
  exists f, snd (os_chmod p m w) = with_fs w f.
Proof.
  unfold os_chmod, bind, refused.
  destruct (faults w (Chmod p)); [exists (fs w); now rewrite with_fs_same|].
  cbn beta iota.
  destruct (fs w p); [eexists; reflexivity|].
  exists (fs w). now rewrite with_fs_same.
Qed.

Lemma place_tree_only_fs (s d : Path) (w : World) :
  exists f, snd (place_tree s d w) = with_fs w f.
Proof.
  unfold place_tree. unfold bind at 1.
  destruct (mkdir_parents_only_fs d w) as [f1 H1].
  destruct (mkdir_parents d w) as [[[]|e1] w1]; cbn [snd] in *; [|now exists f1].
  subst w1. unfold path_exists, gets. unfold bind at 1. unfold bind at 1.
  destruct (present (fs (with_fs w f1) (d // "ClipABit"))).
  - destruct (shutil_rmtree_only_fs (d // "ClipABit") (with_fs w f1)) as [f2 H2].
    destruct (shutil_rmtree (d // "ClipABit") (with_fs w f1)) as [[[]|e2] w2];
      cbn [snd] in *; subst w2; [|now exists f2].
    destruct (shutil_copytree_only_fs s (d // "ClipABit") (with_fs (with_fs w f1) f2))
      as [f3 H3].
    exists f3. now rewrite H3.
  - cbn [ret].
    destruct (shutil_copytree_only_fs s (d // "ClipABit") (with_fs w f1)) as [f3 H3].
    exists f3. now rewrite H3.
Qed.

(** Deployment changes the filesystem and nothing else of the world. *)
Lemma copy_plugin_files_only_fs (w : World) (d : Path) :
  fst (get_resolve_plugin_directory w) = Ret d ->
  exists f, snd (copy_plugin_files w) = with_fs w f.
Proof.
  intro Hd.
  destruct (present (fs w (plugin_source w))) eqn:Hsrc.
  2:{ rewrite (deploy_without_source w Hsrc). exists (fs w). now rewrite with_fs_same. }
  rewrite (copy_plugin_files_steps w d Hsrc Hd).
  destruct (place_tree_only_fs (plugin_source w) d w) as [f1 H1].
  destruct (place_tree (plugin_source w) d w) as [[[]|e] copied]; cbn [snd] in *;
    subst copied; [|now exists f1].
  destruct (present (fs (with_fs w f1) (d // "ClipABit" // "clipabit.py")));
    [|now exists f1].
  destruct (os_chmod_only_fs (d // "ClipABit" // "clipabit.py") 493 (with_fs w f1))
    as [f2 H2].
  destruct (os_chmod (d // "ClipABit" // "clipabit.py") 493 (with_fs w f1))
    as [[[]|e] w4]; cbn [snd] in *; subst w4; now exists f2.
Qed.

Lemma strip_prefix_longer (d : Path) (x : string) (l : Path) :
  strip_prefix (d ++ x :: l) d = None.
Proof.
  induction d as [|a d IH]; [reflexivity|].
  cbn. now rewrite String.eqb_refl.
Qed.

Lemma present_set_mode (f : FS) (p : Path) (m : N) (q : Path) :
  present (set_mode f p m q) = present (f q).
Proof.
  unfold set_mode. destruct (path_eqb p q); [|reflexivity].
  now destruct (f q) as [[dt md|]|].
Qed.

(** After a deployment that returns true the plug-in directory exists. *)
Lemma deployed_dir_present (w : World) (d : Path) :
  fst (get_resolve_plugin_directory w) = Ret d ->
  fst (copy_plugin_files w) = Ret true ->
  present (fs (snd (copy_plugin_files w)) d) = true.
Proof.
  intros Hd Hok.
  assert (Hsrc : present (fs w (plugin_source w)) = true).
  { destruct (present (fs w (plugin_source w))) eqn:E; [reflexivity|].
    rewrite (deploy_without_source w E) in Hok. discriminate. }
  pose proof (copy_plugin_files_steps w d Hsrc Hd) as Hsteps.
  pose proof (place_tree_fs (plugin_source w) d w) as Hfs.
  destruct (place_tree (plugin_source w) d w) as [[[]|e] copied].
  2:{ rewrite Hsteps in Hok. discriminate. }
  destruct (Hfs eq_refl) as (f1 & base & Hm1 & Hdir & Hm2 & Hcopied). clear Hfs.
  cbn [snd] in Hcopied.
  assert (Hc : present (fs copied d) = true).
  { rewrite Hcopied. unfold graft, joinpath.
    change (parts false "ClipABit") with ["ClipABit"].
    rewrite strip_prefix_longer.
    revert Hm2. unfold make_dirs. destruct (existsb _ _); [discriminate|].
    intro H. injection H as <-.
    unfold joinpath. change (parts false "ClipABit") with ["ClipABit"].
    rewrite is_prefix_app. cbn [andb].
    match goal with |- context [present (?g d)] => destruct (present (g d)) eqn:E end;
      cbn [negb]; [exact E|reflexivity]. }
  rewrite Hsteps.
  destruct (present (fs copied (d // "ClipABit" // "clipabit.py"))); [|exact Hc].
  pose proof (os_chmod_fs (d // "ClipABit" // "clipabit.py") 493 copied) as Hch.
  destruct (os_chmod (d // "ClipABit" // "clipabit.py") 493 copied) as [[[]|e] w4].
  - cbn [snd fst] in *. rewrite (Hch eq_refl). now rewrite present_set_mode.
  - rewrite Hsteps in Hok. discriminate.
Qed.

Lemma entry_path_split (d : Path) :
  d // "ClipABit/clipabit.py" = (d // "ClipABit") ++ ["clipabit.py"].
Proof.
  unfold joinpath.
  change (parts false "ClipABit/clipabit.py") with (["ClipABit"] ++ ["clipabit.py"]).
  change (parts false "ClipABit") with ["ClipABit"].
  apply app_assoc.
Qed.

(** X22: deployment and verification agree.  After a deployment into the
    user-scope directory that returns true, of a source tree that holds
    [clipabit.py], verification resolves the same directory, finds the
    entry point, spawns the import check, and its verdict is the status of
    that check.  (The target is taken not to lie inside the source tree.) *)
Theorem verify_after_deploy (w : World) (u s : Path) :
  user_scope_dir w = Some u ->
  system_scope_dir w = Some s ->
  fst (get_resolve_plugin_directory w) = Ret u ->
  is_prefix (plugin_source w) (u // "ClipABit") = false ->
  present (fs w (plugin_source w // "clipabit.py")) = true ->
  fst (copy_plugin_files w) = Ret true ->
  fst (get_resolve_plugin_directory (snd (copy_plugin_files w))) = Ret u /\
  present (fs (snd (copy_plugin_files w)) (u // "ClipABit/clipabit.py")) = true /\
  commands_run verify_installation (snd (copy_plugin_files w)) = [import_check_argv] /\
  fst (verify_installation (snd (copy_plugin_files w)))
    = (if spawnable w import_check_argv
       then Ret (exits_zero w import_check_argv)
       else Raise FileNotFoundError).
Proof.
  intros Hu Hs Hd Hns Hentry Hok.
  pose proof (deployed_dir_present w u Hd Hok) as Hdir.
  pose proof (deployed_tree w u Hd Hns Hok ["clipabit.py"]) as Htree.
  destruct (copy_plugin_files_only_fs w u Hd) as [f Hw].
  set (w' := snd (copy_plugin_files w)) in *.
  assert (Hu' : user_scope_dir w' = Some u) by (rewrite Hw; exact Hu).
  assert (Hs' : system_scope_dir w' = Some s) by (rewrite Hw; exact Hs).
  assert (Hd' : fst (get_resolve_plugin_directory w') = Ret u).
  { rewrite (resolve_returns w' u s Hu' Hs'). unfold resolution_rule.
    now rewrite Hdir. }
  assert (Hp : present (fs w' (u // "ClipABit/clipabit.py")) = true).
  { rewrite entry_path_split, Htree, present_set_mode. exact Hentry. }
  split; [exact Hd'|]. split; [exact Hp|].
  pose proof (verify_run w' u Hd') as Hv. rewrite Hp in Hv.
  assert (Hprocs : procs w' = procs w) by now rewrite Hw.
  rewrite Hprocs in Hv. unfold spawnable, exits_zero.
  split.
  - apply commands_run_one. rewrite Hv.
    now destruct (procs w import_check_argv).
  - rewrite Hv. now destruct (procs w import_check_argv).
Qed.

Lemma verify_after_deploy_witness :
  fst (verify_installation (snd (copy_plugin_files import_fails_world))) = Ret false /\
  fst (verify_installation (snd (copy_plugin_files mac_world))) = Ret true.
Proof.
  split.
  - assert (H : fst (copy_plugin_files import_fails_world) = Ret true)
      by (vm_compute; reflexivity).
    destruct (verify_after_deploy import_fails_world
                (home mac_world // macos_user_suffix) (parts false macos_system_dir)
                eq_refl eq_refl eq_refl eq_refl eq_refl H) as (_ & _ & _ & E).
    rewrite E. reflexivity.
  - assert (H : fst (copy_plugin_files mac_world) = Ret true)
      by (vm_compute; reflexivity).
    destruct (verify_after_deploy mac_world
                (home mac_world // macos_user_suffix) (parts false macos_system_dir)
                eq_refl eq_refl eq_refl eq_refl eq_refl H) as (_ & _ & _ & E).
    rewrite E. reflexivity.
Defined.

(* ------------------------------------------------------------------ *)
(** ** More on the pipeline *)

Lemma subprocess_run_exceptions (argv : list string) (check capture : bool) :
  raises_only_exceptions (subprocess_run argv check capture).
Proof.
  intros w e. unfold subprocess_run.
  destruct (procs w argv) as [|cp]; [intro H; injection H as <-; reflexivity|].
  destruct (check && negb (returncode cp =? 0)%Z); [|discriminate].
  intro H. injection H as <-. reflexivity.
Qed.

Lemma check_platform_exceptions : raises_only_exceptions check_platform.
Proof.
  intros w e. unfold check_platform, bind, gets, ret.
  destruct (String.eqb (system w) "Darwin"); [discriminate|].
  destruct (String.eqb (system w) "Windows"); discriminate.
Qed.

Lemma check_davinci_resolve_exceptions : raises_only_exceptions check_davinci_resolve.
Proof.
  intros w e. unfold check_davinci_resolve, bind, gets, ret.
  destruct (String.eqb (system w) "Darwin");
    [rewrite first_existing_existsb; discriminate|].
  destruct (String.eqb (system w) "Windows");
    [rewrite first_existing_existsb; discriminate|discriminate].
Qed.

Lemma check_python_installation_exceptions :
  raises_only_exceptions check_python_installation.
Proof.
  intros w e. destruct (runtime_check_run w) as (w' & H & _). rewrite H. discriminate.
Qed.

Lemma check_pip_installation_exceptions :
  raises_only_exceptions check_pip_installation.
Proof.
  intros w e. rewrite pip_check_run.
  destruct (procs w pip_version_argv) as [|cp];
    [intro H; injection H as <-; reflexivity|].
  destruct (returncode cp =? 0)%Z; [discriminate|].
  destruct (procs w ensurepip_argv) as [|cp2];
    [intro H; injection H as <-; reflexivity|discriminate].
Qed.

Lemma error_text_exceptions (e0 : exn) : raises_only_exceptions (error_text e0).
Proof.
  intros w e. unfold error_text.
  destruct e0 as [c|rc [[|b bs]|]| | | | | | | | |]; try discriminate.
  unfold of_option, bind, ret, raise.
  destruct (utf8_decode (b :: bs)); [discriminate|].
  intro H. injection H as <-. reflexivity.
Qed.

Lemma install_each_exceptions (items : list value) :
  raises_only_exceptions (install_each items).
Proof.
  induction items as [|dep rest IH]; intros w e; [discriminate|].
  cbn [install_each]. unfold bind at 1. unfold try_except.
  destruct dep as [s| | | | | |];
    try (unfold raise; cbn; intro H; injection H as <-; reflexivity).
  unfold bind at 1.
  pose proof (subprocess_run_exceptions (pip_install_argv s) true true w) as Hrun.
  destruct (subprocess_run (pip_install_argv s) true true w) as [[cp|e1] w1].
  - cbn [ret]. apply IH.
  - specialize (Hrun e1 eq_refl).
    destruct (is_CalledProcessError e1).
    + unfold bind at 1.
      pose proof (error_text_exceptions e1 w1) as Htxt.
      destruct (error_text e1 w1) as [[[]|e2] w2].
      * cbn. discriminate.
      * intro H. injection H as <-. exact (Htxt e2 eq_refl).
    + intro H. injection H as <-. exact Hrun.
Qed.

Lemma install_dependencies_exceptions : raises_only_exceptions install_dependencies.
Proof.
  intros w e. unfold install_dependencies. unfold bind at 1.
  destruct (get_dependencies_total w) as [v Hv]. rewrite Hv.
  destruct (negb (truthy v)); [discriminate|].
  unfold of_option, bind.
  destruct (py_iter v) as [items|]; [apply install_each_exceptions|].
  intro H. injection H as <-. reflexivity.
Qed.

Lemma resolver_exceptions : raises_only_exceptions get_resolve_plugin_directory.
Proof.
  intros w e. unfold get_resolve_plugin_directory. unfold gets. unfold bind at 1.
  destruct (String.eqb (system w) "Darwin").
  - unfold bind, gets. now rewrite choose_directory_rule.
  - destruct (String.eqb (system w) "Windows"); [|discriminate].
    unfold os_getenv, Path_of, gets, bind.
    destruct (environ w "APPDATA") as [a|];
      [|intro H; injection H as <-; reflexivity].
    destruct (environ w "PROGRAMDATA") as [p|];
      [|intro H; injection H as <-; reflexivity].
    now rewrite choose_directory_rule.
Qed.

Lemma copy_plugin_files_exceptions : raises_only_exceptions copy_plugin_files.
Proof.
  intros w e.
  destruct (present (fs w (plugin_source w))) eqn:Hsrc.
  2:{ rewrite (deploy_without_source w Hsrc). discriminate. }
  destruct (get_resolve_plugin_directory w) as [[d|e1] w1] eqn:Hr.
  - rewrite (copy_plugin_files_steps w d Hsrc (f_equal fst Hr)).
    destruct (place_tree (plugin_source w) d w) as [[[]|e2] copied]; [|discriminate].
    destruct (present (fs copied (d // "ClipABit" // "clipabit.py"))); [|discriminate].
    destruct (os_chmod (d // "ClipABit" // "clipabit.py") 493 copied) as [[[]|e3] w4];
      discriminate.
  - pose proof (resolver_exceptions w e1 (f_equal fst Hr)) as He.
    unfold copy_plugin_files, bind, path_exists, gets. cbn beta iota.
    rewrite Hsrc. cbn [negb]. rewrite Hr.
    intro H. injection H as <-. exact He.
Qed.

Lemma verify_installation_exceptions : raises_only_exceptions verify_installation.
Proof.
  intros w e.
  destruct (get_resolve_plugin_directory w) as [[d|e1] w1] eqn:Hr.
  - rewrite (verify_run w d (f_equal fst Hr)).
    destruct (present (fs w (d // "ClipABit/clipabit.py"))); [|discriminate].
    destruct (procs w import_check_argv); [|discriminate].
    intro H. injection H as <-. reflexivity.
  - pose proof (resolver_exceptions w e1 (f_equal fst Hr)) as He.
    unfold verify_installation. unfold bind at 1. rewrite Hr.
    intro H. injection H as <-. exact He.
Qed.

Lemma gate_exceptions (s : stage) : raises_only_exceptions (gate_of s).
Proof.
  destruct s; cbn [gate_of].
  - apply check_platform_exceptions.
  - apply check_davinci_resolve_exceptions.
  - apply check_python_installation_exceptions.
  - apply check_pip_installation_exceptions.
  - apply install_dependencies_exceptions.
  - apply copy_plugin_files_exceptions.
  - apply verify_installation_exceptions.
Qed.

Lemma exit_status_exception {A} (e : exn) :
  is_Exception e = true -> exit_status (@Raise A e) = 1%Z.
Proof. destruct e; [discriminate|reflexivity..]. Qed.

(** How a run of stages ends: on the request to exit of the first gate
    that returns false, on the exception of the first gate that raises, or
    on the final request to exit with status 0. *)
Lemma run_pipeline_end (l : list stage) :
  forall w,
    exists e, fst (run_pipeline (staged l) w) = Raise e /\
              (e = SystemExit 0 \/ e = SystemExit 1 \/ is_Exception e = true).
Proof.
  induction l as [|s l IH]; intro w.
  - exists (SystemExit 0). split; [reflexivity|now left].
  - cbn [staged map run_pipeline]. unfold exit_unless. unfold bind at 1. unfold bind at 1.
    pose proof (gate_exceptions s w) as Hg.
    destruct (gate_of s w) as [[[|]|e] w1].
    + cbn [negb ret]. apply IH.
    + cbn [negb]. exists (SystemExit (status_on_failure s)).
      split; [reflexivity|]. destruct s; cbn; auto.
    + exists e. split; [reflexivity|]. right. right. exact (Hg e eq_refl).
Qed.

(** X23: a run never comes back from [main]: it always ends on a request
    to exit or on an exception, and the status handed to the operating
    system is 0 or 1, nothing else. *)
Theorem main_exit_status (w : World) :
  (exists e, fst (main w) = Raise e) /\
  (exit_status (fst (main w)) = 0%Z \/ exit_status (fst (main w)) = 1%Z).
Proof.
  rewrite main_is_pipeline.
  destruct (run_pipeline_end all_stages w) as (e & He & Hc).
  split; [now exists e|]. rewrite He.
  destruct Hc as [-> | [-> | Hx]]; [now left|now right|].
  right. now apply exit_status_exception.
Qed.

Lemma run_pipeline_status_zero (before : list stage) (rest : list (M bool * Z)) :
  (forall s, In s before -> status_on_failure s <> 0%Z) ->
  forall w,
    exit_status (fst (run_pipeline (staged before ++ rest) w)) = 0%Z ->
    exists w1, run_gates (map gate_of before) w = Some w1.
Proof.
  induction before as [|s before IH]; intros Hcodes w.
  - intros _. exists w. reflexivity.
  - cbn [staged map app run_pipeline run_gates].
    unfold exit_unless. unfold bind at 1. unfold bind at 1.
    pose proof (gate_exceptions s w) as Hg.
    destruct (gate_of s w) as [[[|]|e] w1].
    + cbn [negb ret]. apply IH. intros s' Hin. apply Hcodes. now right.
    + cbn [negb]. cbn. intro H. elim (Hcodes s (or_introl eq_refl)). exact H.
    + cbn [fst]. rewrite (exit_status_exception e (Hg e eq_refl)). discriminate.
Qed.

Lemma run_gates_pipeline (before : list stage) (rest : list (M bool * Z)) :
  forall w w1,
    run_gates (map gate_of before) w = Some w1 ->
    run_pipeline (staged before ++ rest) w = run_pipeline rest w1.
Proof.
  induction before as [|s before IH]; intros w w1 H.
  - injection H as <-. reflexivity.
  - cbn [staged map app run_pipeline run_gates] in *.
    unfold exit_unless. unfold bind at 1. unfold bind at 1.
    destruct (gate_of s w) as [[[|]|e] w0]; try discriminate.
    cbn [negb ret]. now apply IH.
Qed.

(** X24: the run ends with status 0 exactly when the six gates before
    verification all returned true and verification came to a verdict,
    true or false: status 0 means the plug-in files were deployed, and a
    verification that raises is reported with status 1. *)
Theorem status_zero_iff_deployed (w : World) :
  exit_status (fst (main w)) = 0%Z <->
  reaches VerifyInstallation w = true /\
  exists verdict : bool,
    fst (verify_installation (world_before VerifyInstallation w)) = Ret verdict.
Proof.
  assert (Hsplit : staged all_stages
                   = staged (stages_before VerifyInstallation)
                       ++ [(verify_installation, 0%Z)]) by reflexivity.
  assert (Hlast : forall w1,
            run_pipeline [(verify_installation, 0%Z)] w1
            = match verify_installation w1 with
              | (Ret _, w2) => (Raise (SystemExit 0), w2)
              | (Raise e, w2) => (Raise e, w2)
              end).
  { intro w1. cbn [run_pipeline]. unfold exit_unless, bind, sys_exit, raise, ret.
    destruct (verify_installation w1) as [[[|]|e] w2]; reflexivity. }
  unfold reaches, world_before. rewrite main_is_pipeline, Hsplit. split.
  - intro H.
    destruct (run_pipeline_status_zero (stages_before VerifyInstallation)
                [(verify_installation, 0%Z)]) with (w := w) as [w1 Hrun].
    { intros s Hin. cbn in Hin.
      repeat (destruct Hin as [<-|Hin]; [discriminate|]). elim Hin. }
    { exact H. }
    rewrite Hrun. split; [reflexivity|].
    rewrite (run_gates_pipeline _ _ w w1 Hrun), Hlast in H.
    pose proof (verify_installation_exceptions w1) as Hx.
    destruct (verify_installation w1) as [[b|e] w2]; [now exists b|].
    cbn [fst] in H. rewrite (exit_status_exception e (Hx e eq_refl)) in H.
    discriminate.
  - intros [Hreach [b Hb]].
    destruct (run_gates (map gate_of (stages_before VerifyInstallation)) w)
      as [w1|] eqn:Hrun; [|discriminate].
    rewrite (run_gates_pipeline _ _ w w1 Hrun), Hlast.
    destruct (verify_installation w1) as [[b'|e] w2]; [reflexivity|discriminate].
Qed.
